(** * scripts/visuals.js: the particle background, embedded and verified

    The script is one closure over a canvas, a particle array, a pointer
    record and a frame handle.  Numbers that the browser hands out as
    integers ([innerWidth], [innerHeight], frame handles, array lengths) are
    modelled in [Z]; every other JavaScript number is an IEEE 754 binary64
    value, modelled by Rocq's primitive [float], whose operations are the
    ones the script executes ([NaN] and the infinities included). *)

From Stdlib Require Import ZArith String List Bool Lia.
From Stdlib Require Import Uint63 Floats.
From Equations Require Import Equations.
Import ListNotations.

Set Warnings "-inexact-float".
Local Open Scope Z_scope.

(** ** JavaScript numbers *)

Module Num.

(** An integer read where the script expects a number; exact below 2^53
    (the viewport sides are 32-bit integers). *)
Definition of_Z (z : Z) : float :=
  if z <? 0 then PrimFloat.opp (PrimFloat.of_uint63 (Uint63.of_Z (- z)))
  else PrimFloat.of_uint63 (Uint63.of_Z z).

(** [Math.floor]: a finite value with a negative exponent is below 2^53 in
    magnitude, so its floor is computed in [Z] and converted back exactly;
    everything else (integers, zeros, infinities, NaN) is its own floor. *)
Definition floor (f : float) : float :=
  match Prim2SF f with
  | S754_finite s m e =>
      if e <? 0
      then of_Z ((if s then Z.neg m else Z.pos m) / 2 ^ (- e))
      else f
  | _ => f
  end.

(** [Math.max] on two arguments (the sign of a zero result is not tracked). *)
Definition max (a b : float) : float :=
  if PrimFloat.is_nan a || PrimFloat.is_nan b then PrimFloat.nan
  else if PrimFloat.ltb a b then b else a.

(** [a > b] *)
Definition gtb (a b : float) : bool := PrimFloat.ltb b a.

(** [v || d] on a number: zero and NaN are falsy. *)
Definition or_default (v d : float) : float :=
  if PrimFloat.is_zero v || PrimFloat.is_nan v then d else v.

Definition PI : float := 0x1.921fb54442d18p+1%float.

End Num.

(** ** Data model *)

(** The object literal returned by [createParticle]. *)
Record Particle := mkParticle {
  p_x : float;
  p_y : float;
  p_vx : float;
  p_vy : float;
  p_r : float
}.

(** A property of [mouse] that holds [null], [undefined] (a touch event
    without touches has no [clientX]) or a number. *)
Inductive Coord :=
| Null
| Undefined
| Number (v : float).

(** ToNumber, as applied by [p.x - mouse.x]. *)
Definition toNumber (c : Coord) : float :=
  match c with
  | Null => 0%float
  | Undefined => PrimFloat.nan
  | Number v => v
  end.

(** [c !== null] *)
Definition notNull (c : Coord) : bool :=
  match c with Null => false | _ => true end.

Record Mouse := mkMouse {
  mouse_x : Coord;
  mouse_y : Coord;
  mouse_radius : float
}.

Module settings.
Definition baseCount : float := 50%float.
Definition maxDistance : float := 120%float.
Definition speed : float := 0.3%float.
End settings.

(** What the script reads from [window]. [matchMedia] is [None] when the
    function is missing, otherwise the [matches] flag of the
    [(prefers-reduced-motion: reduce)] query. *)
Record Window := mkWindow {
  matchMedia : option bool;
  innerWidth : Z;
  innerHeight : Z;
  devicePixelRatio : float
}.

Inductive ReadyState := Loading | Interactive.

(** What the script reads from [document]. [body] is [None] when
    [document.body] is null; otherwise it holds [dataset.visuals], [None]
    when the attribute is not set. *)
Record Document := mkDocument {
  readyState : ReadyState;
  hidden : bool;
  body : option (option string)
}.

(** Calls on the 2D context, in the order they are made. *)
Inductive CtxOp :=
| SetTransform (a b c d e f : float)
| ClearRect (x y w h : float)
| BeginPath
| FillStyle (red green blue : Z) (alpha : float)
| StrokeStyle (red green blue : Z) (alpha : float)
| LineWidth (w : float)
| Arc (x y r a0 a1 : float)
| MoveTo (x y : float)
| LineTo (x y : float)
| Fill
| Stroke.

Record Canvas := mkCanvas {
  width : float;
  height : float;
  style_width : Z;        (* the string [n + 'px'] *)
  style_height : Z;
  ctx : list CtxOp
}.

Inductive Target := OnWindow | OnDocument.

Inductive Handler := h_init | h_resize | h_onMove | h_onLeave | h_onVisibility.

Definition Listener : Type := Target * string * Handler.

(** The closure variables of the script. *)
Record Vars := mkVars {
  w : float;
  h : float;
  particles : list Particle;
  animationId : option Z;
  mouse : Mouse
}.

(** The page around it. [frames] are the handles of this script's pending
    frame callbacks, [next_frame] the handle the next request returns;
    [entropy] is the sequence of values [Math.random()] returns and [draws]
    how many of them have been consumed. *)
Record Host := mkHost {
  window : Window;
  document : Document;
  canvas : Canvas;
  listeners : list Listener;
  frames : list Z;
  next_frame : Z;
  entropy : nat -> float;
  draws : nat
}.

Record World := mkWorld {
  vars : Vars;
  host : Host
}.

(** *** Field updates *)

Definition set_vars (f : Vars -> Vars) (s : World) : World :=
  mkWorld (f (vars s)) (host s).

Definition set_host (f : Host -> Host) (s : World) : World :=
  mkWorld (vars s) (f (host s)).

Definition with_w (v : float) (a : Vars) : Vars :=
  mkVars v (h a) (particles a) (animationId a) (mouse a).
Definition with_h (v : float) (a : Vars) : Vars :=
  mkVars (w a) v (particles a) (animationId a) (mouse a).
Definition with_particles (v : list Particle) (a : Vars) : Vars :=
  mkVars (w a) (h a) v (animationId a) (mouse a).
Definition with_animationId (v : option Z) (a : Vars) : Vars :=
  mkVars (w a) (h a) (particles a) v (mouse a).
Definition with_mouse (v : Mouse) (a : Vars) : Vars :=
  mkVars (w a) (h a) (particles a) (animationId a) v.

Definition with_window (v : Window) (a : Host) : Host :=
  mkHost v (document a) (canvas a) (listeners a) (frames a) (next_frame a)
         (entropy a) (draws a).
Definition with_document (v : Document) (a : Host) : Host :=
  mkHost (window a) v (canvas a) (listeners a) (frames a) (next_frame a)
         (entropy a) (draws a).
Definition with_canvas (v : Canvas) (a : Host) : Host :=
  mkHost (window a) (document a) v (listeners a) (frames a) (next_frame a)
         (entropy a) (draws a).
Definition with_listeners (v : list Listener) (a : Host) : Host :=
  mkHost (window a) (document a) (canvas a) v (frames a) (next_frame a)
         (entropy a) (draws a).
Definition with_frames (v : list Z) (n : Z) (a : Host) : Host :=
  mkHost (window a) (document a) (canvas a) (listeners a) v n
         (entropy a) (draws a).
Definition with_draws (v : nat) (a : Host) : Host :=
  mkHost (window a) (document a) (canvas a) (listeners a) (frames a)
         (next_frame a) (entropy a) v.

Definition win (s : World) : Window := window (host s).
Definition doc (s : World) : Document := document (host s).

(** ** Host primitives *)

(** The horizontal and vertical scale of the context's current transform
    after the calls [ops]: that of the last [setTransform(a, 0, 0, d, 0, 0)],
    the identity before any. *)
Definition scaleInForce (ops : list CtxOp) : float * float :=
  fold_left (fun sc op =>
               match op with
               | SetTransform a _ _ d _ _ => (a, d)
               | _ => sc
               end) ops (1%float, 1%float).

(** [clearRect(0, 0, w, h)] clears the rectangle as the current transform
    maps it: this is how far it reaches in bitmap pixels. *)
Definition clearedExtent (ops : list CtxOp) (w h : float) : float * float :=
  let (a, d) := scaleInForce ops in ((a * w)%float, (d * h)%float).

(** [ctx.<op>(...)] *)
Definition emit (ops : list CtxOp) (s : World) : World :=
  set_host (fun a =>
    let c := canvas a in
    with_canvas (mkCanvas (width c) (height c) (style_width c)
                          (style_height c) (ctx c ++ ops)) a) s.

(** [requestAnimationFrame(step)]: the handle returned and the new world. *)
Definition requestAnimationFrame (s : World) : Z * World :=
  let id := next_frame (host s) in
  (id, set_host (with_frames (frames (host s) ++ [id]) (id + 1)) s).

(** [cancelAnimationFrame(id)]; [null] converts to handle 0, which no
    callback has. *)
Definition cancelAnimationFrame (id : option Z) (s : World) : World :=
  let n := match id with Some n => n | None => 0 end in
  set_host (fun a =>
    with_frames (filter (fun k => negb (k =? n)) (frames a)) (next_frame a) a) s.

(** [target.addEventListener(type, handler)] *)
Definition addEventListener (t : Target) (type : string) (f : Handler)
    (s : World) : World :=
  set_host (fun a => with_listeners (listeners a ++ [(t, type, f)]) a) s.

(** ** The run gate *)

(** Whether the platform reports the reduced-motion preference:
    [window.matchMedia && window.matchMedia(q).matches]. *)
Definition reducedMotion (wn : Window) : bool :=
  match matchMedia wn with
  | Some matches => matches
  | None => false
  end.

(** [document.body && document.body.dataset && dataset.visuals === 'off'] *)
Definition visualsOff (d : Document) : bool :=
  match body d with
  | Some (Some v) => String.eqb v "off"
  | _ => false
  end.

Definition shouldRun (s : World) : bool :=
  if reducedMotion (win s) then false
  else if innerWidth (win s) <=? 640 then false
  else if visualsOff (doc s) then false
  else true.

(** The [data-visuals] attribute, [None] when it (or the body) is absent. *)
Definition dataVisuals (d : Document) : option string :=
  match body d with
  | Some a => a
  | None => None
  end.

(** ** Particles *)

(** [Math.random()] *)
Definition random (s : World) : float * World :=
  (entropy (host s) (draws (host s)),
   set_host (fun a => with_draws (S (draws a)) a) s).

Definition createParticle (s : World) : Particle * World :=
  let (r1, s) := random s in
  let x := (r1 * Num.of_Z (innerWidth (win s)))%float in
  let (r2, s) := random s in
  let y := (r2 * Num.of_Z (innerHeight (win s)))%float in
  let (r3, s) := random s in
  let vx := ((r3 - 0.5) * settings.speed * 2)%float in
  let (r4, s) := random s in
  let vy := ((r4 - 0.5) * settings.speed * 2)%float in
  let (r5, s) := random s in
  let r := (r5 * 1.8 + 0.6)%float in
  (mkParticle x y vx vy r, s).

(** [particles.length] *)
Definition count (s : World) : Z := Z.of_nat (length (particles (vars s))).

(** [particles.push(createParticle())] *)
Definition push (s : World) : World :=
  let (p, s) := createParticle s in
  set_vars (fun a => with_particles (particles a ++ [p]) a) s.

(** [particles.pop()] *)
Definition pop (s : World) : World :=
  set_vars (fun a => with_particles (removelast (particles a)) a) s.

(** [while(particles.length < target){ particles.push(createParticle()); }] *)
Equations? grow (target : Z) (s : World) : World
  by wf (Z.to_nat (target - count s)) lt :=
  grow target s with Z_lt_dec (count s) target := {
    | left _ := grow target (push s);
    | right _ := s }.
Proof.
  assert (count (push s) = count s + 1); [|lia].
  unfold push, createParticle, random, count; simpl.
  rewrite length_app; simpl; lia.
Qed.

(** [while(particles.length > target){ particles.pop(); }]
    Popping the empty array leaves it empty, so under a negative target the
    script would spin; [resize] never computes one (its target is at least
    30) and the model stops on the empty array. *)
Equations? trim (target : Z) (s : World) : World
  by wf (Z.to_nat (count s)) lt :=
  trim target s with Z_lt_dec target (count s) := {
    | left _ with Z_lt_dec 0 (count s) := {
        | left _ := trim target (pop s);
        | right _ := s };
    | right _ := s }.
Proof.
  assert (count (pop s) = count s - 1); [|lia].
  unfold pop, count in *; simpl.
  destruct (particles (vars s)) as [|p ps]; [simpl in *; lia|].
  rewrite removelast_firstn_len, length_firstn. simpl length. lia.
Qed.

(** [Math.max(30, Math.min(120, Math.floor(area / 16000)))] with
    [area = window.innerWidth * window.innerHeight]; both factors are
    integers, so the floor of the quotient is the quotient in [Z]. *)
Definition targetCount (wn : Window) : Z :=
  let area := innerWidth wn * innerHeight wn in
  Z.max 30 (Z.min 120 (area / 16000)).

(** ** resize *)

Definition resize (s : World) : World :=
  let wn := win s in
  let dpr := Num.or_default (devicePixelRatio wn) 1 in
  let cw := Num.max 1 (Num.floor (Num.of_Z (innerWidth wn) * dpr)) in
  let ch := Num.max 1 (Num.floor (Num.of_Z (innerHeight wn) * dpr)) in
  let s := set_vars (fun a => with_h ch (with_w cw a)) s in
  let s := set_host (fun a =>
             with_canvas (mkCanvas cw ch (innerWidth wn) (innerHeight wn)
                                   (ctx (canvas a))) a) s in
  let s := emit [SetTransform dpr 0 0 dpr 0 0] s in
  (* recompute particle count based on area *)
  let target := targetCount wn in
  let s := grow target s in
  trim target s.

(** ** step *)

Definition clearCanvas (s : World) : World :=
  let c := canvas (host s) in
  emit [ClearRect 0 0 (width c) (height c)] s.

(** [p.x += p.vx; p.y += p.vy] *)
Definition integrate (p : Particle) : Particle :=
  mkParticle (p_x p + p_vx p) (p_y p + p_vy p) (p_vx p) (p_vy p) (p_r p).

(** The two tests on one coordinate, in the order they are made; [edge] is
    [window.innerWidth + 10] or [window.innerHeight + 10]. *)
Definition wrapAxis (edge v : float) : float :=
  let v := if (v <? -10)%float then edge else v in
  if Num.gtb v edge then (-10)%float else v.

Definition wrap (wn : Window) (p : Particle) : Particle :=
  mkParticle (wrapAxis (Num.of_Z (innerWidth wn) + 10) (p_x p))
             (wrapAxis (Num.of_Z (innerHeight wn) + 10) (p_y p))
             (p_vx p) (p_vy p) (p_r p).

(** Offset, distance and force of the repulsion, as the script names them. *)
Definition offsetX (m : Mouse) (p : Particle) : float :=
  (p_x p - toNumber (mouse_x m))%float.
Definition offsetY (m : Mouse) (p : Particle) : float :=
  (p_y p - toNumber (mouse_y m))%float.
Definition pointerDist (m : Mouse) (p : Particle) : float :=
  let dx := offsetX m p in
  let dy := offsetY m p in
  PrimFloat.sqrt (dx * dx + dy * dy).

Definition repel (m : Mouse) (p : Particle) : Particle :=
  if notNull (mouse_x m) then
    let dx := offsetX m p in
    let dy := offsetY m p in
    let dist := pointerDist m p in
    if (dist <? mouse_radius m)%float then
      let force := ((mouse_radius m - dist) / mouse_radius m)%float in
      mkParticle (p_x p) (p_y p)
                 (p_vx p + (dx / dist) * 0.6 * force)
                 (p_vy p + (dy / dist) * 0.6 * force)
                 (p_r p)
    else p
  else p.

(** The update of one particle in the first loop of [step]. *)
Definition advance (wn : Window) (m : Mouse) (p : Particle) : Particle :=
  repel m (wrap wn (integrate p)).

Definition drawPoint (p : Particle) : list CtxOp :=
  [BeginPath; FillStyle 160 180 255 0.9;
   Arc (p_x p) (p_y p) (p_r p) 0 (Num.PI * 2); Fill].

(** [for(let p of particles){ ... }]: the updated array and the calls made. *)
Fixpoint moveAll (wn : Window) (m : Mouse) (ps : list Particle)
    : list Particle * list CtxOp :=
  match ps with
  | [] => ([], [])
  | p :: rest =>
      let p' := advance wn m p in
      let (rest', ops) := moveAll wn m rest in
      (p' :: rest', drawPoint p' ++ ops)
  end.

Definition pairDist (a b : Particle) : float :=
  let dx := (p_x a - p_x b)%float in
  let dy := (p_y a - p_y b)%float in
  PrimFloat.sqrt (dx * dx + dy * dy).

(** The calls that stroke one line from [a] to [b] at opacity [alpha]. *)
Definition segment (a b : Particle) (alpha : float) : list CtxOp :=
  [BeginPath; StrokeStyle 130 150 255 alpha; LineWidth 1;
   MoveTo (p_x a) (p_y a); LineTo (p_x b) (p_y b); Stroke].

(** The body of the inner loop of the second pass. *)
Definition link (a b : Particle) : list CtxOp :=
  let dist := pairDist a b in
  if (dist <? settings.maxDistance)%float then
    let alpha := (0.12 * (1 - dist / settings.maxDistance))%float in
    segment a b alpha
  else [].

(** [for(i=0;i<n;i++) for(j=i+1;j<n;j++) ...] over [particles[i]],
    [particles[j]]. *)
Definition drawLines (ps : list Particle) : list CtxOp :=
  let n := length ps in
  flat_map (fun i =>
    flat_map (fun j =>
      match nth_error ps i, nth_error ps j with
      | Some a, Some b => link a b
      | _, _ => []
      end) (seq (S i) (n - S i))) (seq 0 n).

Definition step (s : World) : World :=
  if negb (shouldRun s) then
    let s := cancelAnimationFrame (animationId (vars s)) s in
    let s := set_vars (with_animationId None) s in
    clearCanvas s
  else
    let wn := win s in
    let s := emit [ClearRect 0 0 (Num.of_Z (innerWidth wn))
                             (Num.of_Z (innerHeight wn))] s in
    let (ps, ops) := moveAll wn (mouse (vars s)) (particles (vars s)) in
    let s := emit ops (set_vars (with_particles ps) s) in
    let s := emit (drawLines ps) s in
    let (id, s) := requestAnimationFrame s in
    set_vars (with_animationId (Some id)) s.

(** ** Input handlers *)

(** The event object as [onMove] reads it: [touches] is [None] on a mouse
    event; [clientX]/[clientY] are [Undefined] on a touch event. *)
Record UIEvent := mkEvent {
  touches : option (list (float * float));
  clientX : Coord;
  clientY : Coord
}.

(** [e.touches && e.touches[0]] *)
Definition firstTouch (e : UIEvent) : option (float * float) :=
  match touches e with
  | Some (t :: _) => Some t
  | _ => None
  end.

Definition onMove (e : UIEvent) (s : World) : World :=
  let x := match firstTouch e with
           | Some t => Number (fst t)
           | None => clientX e
           end in
  let y := match firstTouch e with
           | Some t => Number (snd t)
           | None => clientY e
           end in
  set_vars (fun a => with_mouse (mkMouse x y (mouse_radius (mouse a))) a) s.

Definition onLeave (s : World) : World :=
  set_vars (fun a => with_mouse (mkMouse Null Null (mouse_radius (mouse a))) a) s.

(** toggle removed: visuals default to body data-visuals attribute *)
Definition initToggle (s : World) : World := s.

(** Truthiness of [animationId]: [null] and the number 0 are falsy. *)
Definition truthy (id : option Z) : bool :=
  match id with
  | Some n => negb (n =? 0)
  | None => false
  end.

Definition onVisibility (s : World) : World :=
  if hidden (doc s) then
    let s := if truthy (animationId (vars s))
             then cancelAnimationFrame (animationId (vars s)) s
             else s in
    set_vars (with_animationId None) s
  else
    if negb (truthy (animationId (vars s))) && shouldRun s then
      let (id, s) := requestAnimationFrame s in
      set_vars (with_animationId (Some id)) s
    else s.

(** ** init *)

(** How a call ends: it returns, or an exception leaves it (with the world
    as it was at the throw). *)
Inductive Completion :=
| Normal (s : World)
| Throw (s : World).

Definition world_of (c : Completion) : World :=
  match c with Normal s => s | Throw s => s end.

(** [!document.body.dataset.visuals]: unset or the empty string. *)
Definition falsyString (v : option string) : bool :=
  match v with
  | None => true
  | Some v => String.eqb v ""
  end.

(** [document.body.dataset.visuals = 'on'] *)
Definition setVisuals (v : string) (s : World) : World :=
  set_host (fun a =>
    let d := document a in
    with_document (mkDocument (readyState d) (hidden d) (Some (Some v))) a) s.

(** [if(!document.body.dataset.visuals) document.body.dataset.visuals = 'on'] *)
Definition normalize (v : option string) (s : World) : World :=
  if falsyString v then setVisuals "on" s else s.

Definition init (s : World) : Completion :=
  match body (doc s) with
  | None => Throw s             (* TypeError: document.body is null *)
  | Some v =>
      (* default to on (unless explicitly off) *)
      let s := normalize v s in
      (* skip if reduced motion or small screen *)
      if negb (shouldRun s) then Normal s
      else
        let s := resize s in
        (* initial particles *)
        let target := targetCount (win s) in
        let s := Nat.iter (Z.to_nat target) push s in
        let s := addEventListener OnWindow "resize" h_resize s in
        let s := addEventListener OnWindow "mousemove" h_onMove s in
        let s := addEventListener OnWindow "touchmove" h_onMove s in
        let s := addEventListener OnWindow "mouseout" h_onLeave s in
        let s := addEventListener OnWindow "touchend" h_onLeave s in
        let s := addEventListener OnDocument "visibilitychange" h_onVisibility s in
        let s := initToggle s in
        let (id, s) := requestAnimationFrame s in
        Normal (set_vars (with_animationId (Some id)) s)
  end.

(** ** The script body and the page's events *)

(** The closure variables as declared. *)
Definition declared : Vars :=
  mkVars 0 0 [] None (mkMouse Null Null 90).

(** The body of the script. [found] tells whether
    [document.getElementById('tech-bg')] returned an element. *)
Definition boot (found : bool) (a : Host) : World :=
  let s := mkWorld declared a in
  if negb found then s
  else
    match readyState (document a) with
    | Loading => addEventListener OnDocument "DOMContentLoaded" h_init s
    | Interactive => world_of (init s)
    end.

Definition call (f : Handler) (e : UIEvent) (s : World) : World :=
  match f with
  | h_init => world_of (init s)
  | h_resize => resize s
  | h_onMove => onMove e s
  | h_onLeave => onLeave s
  | h_onVisibility => onVisibility s
  end.

Definition listens (t : Target) (type : string) (l : Listener) : bool :=
  match l with
  | (t', type', _) =>
      (match t, t' with
       | OnWindow, OnWindow | OnDocument, OnDocument => true
       | _, _ => false
       end) && String.eqb type type'
  end.

(** The listeners registered for the event when it is dispatched run in
    registration order. *)
Definition dispatch (t : Target) (type : string) (e : UIEvent) (s : World)
    : World :=
  fold_left (fun s l => call (snd l) e s)
            (filter (listens t type) (listeners (host s))) s.

Definition plainEvent : UIEvent := mkEvent None Undefined Undefined.

(** What the page can do to the script between two of its runs. *)
Inductive Event :=
| Resized (iw ih : N) (dpr : float)      (* the viewport changes *)
| MouseMove (x y : float)
| TouchMove (ts : list (float * float))
| MouseOut
| TouchEnd
| VisibilityChange (hid : bool)
| DOMContentLoaded
| Frame (id : Z)                         (* the host runs a pending callback *)
| VisualsAttr (v : option string)        (* other code sets data-visuals *)
| MotionPreference (m : option bool).

Definition deliver (ev : Event) (s : World) : World :=
  match ev with
  | Resized iw ih dpr =>
      let wn := win s in
      let s := set_host (with_window
                 (mkWindow (matchMedia wn) (Z.of_N iw) (Z.of_N ih) dpr)) s in
      dispatch OnWindow "resize" plainEvent s
  | MouseMove x y =>
      dispatch OnWindow "mousemove" (mkEvent None (Number x) (Number y)) s
  | TouchMove ts =>
      dispatch OnWindow "touchmove" (mkEvent (Some ts) Undefined Undefined) s
  | MouseOut => dispatch OnWindow "mouseout" plainEvent s
  | TouchEnd => dispatch OnWindow "touchend" plainEvent s
  | VisibilityChange hid =>
      let d := doc s in
      let s := set_host (with_document
                 (mkDocument (readyState d) hid (body d))) s in
      dispatch OnDocument "visibilitychange" plainEvent s
  | DOMContentLoaded =>
      let d := doc s in
      match readyState d with
      | Loading =>
          let s := set_host (with_document
                     (mkDocument Interactive (hidden d) (body d))) s in
          dispatch OnDocument "DOMContentLoaded" plainEvent s
      | Interactive => s
      end
  | Frame id =>
      if existsb (Z.eqb id) (frames (host s)) then
        step (set_host (fun a =>
                with_frames (filter (fun k => negb (k =? id)) (frames a))
                            (next_frame a) a) s)
      else s
  | VisualsAttr v =>
      let d := doc s in
      match body d with
      | Some _ => set_host (with_document
                    (mkDocument (readyState d) (hidden d) (Some v))) s
      | None => s
      end
  | MotionPreference m =>
      let wn := win s in
      set_host (with_window
        (mkWindow m (innerWidth wn) (innerHeight wn) (devicePixelRatio wn))) s
  end.

Definition run (evs : list Event) (s : World) : World :=
  fold_left (fun s ev => deliver ev s) evs s.

(** A page before the script runs: no callback pending, no listener of the
    script registered, and a viewport with non-negative sides. *)
Definition pristine (a : Host) : Prop :=
  frames a = [] /\ listeners a = [] /\ 0 < next_frame a /\
  0 <= innerWidth (window a) /\ 0 <= innerHeight (window a).

Inductive reachable : World -> Prop :=
| reach_boot found a : pristine a -> reachable (boot found a)
| reach_deliver ev s : reachable s -> reachable (deliver ev s).

(** A desktop page with the document already parsed: no reduced-motion
    preference, device pixel ratio 1, the canvas at its default size, and a
    generator that keeps returning 0.5. *)
Definition page (iw ih : Z) (attr : option string) : Host :=
  mkHost (mkWindow (Some false) iw ih 1)
         (mkDocument Interactive false (Some attr))
         (mkCanvas 300 150 0 0 [])
         [] [] 1 (fun _ => 0.5%float) 0.

(** Sample worlds: the script body run on the 1920 by 1080 page; the closure
    before [init] on a 600 by 800 page and on a page whose attribute is
    "off"; a hand-made world that holds a stale handle on the narrow page;
    and two particles 60 apart on the desktop page. *)
Definition desktop : World := boot true (page 1920 1080 None).

Definition narrow : World := mkWorld declared (page 600 800 None).

Definition switchedOff : World :=
  mkWorld declared (page 1920 1080 (Some "off"%string)).

Definition stalled : World :=
  mkWorld (with_animationId (Some 7) declared)
          (with_frames [7] 8 (page 600 800 None)).

(** The closure before [init] on desktop pages that differ in one input of
    the run gate: the reduced-motion query matches; [matchMedia] is missing
    and the attribute holds some other word. *)
Definition calmPage : World :=
  mkWorld declared
          (with_window (mkWindow (Some true) 1920 1080 1) (page 1920 1080 None)).

Definition dimPage : World :=
  mkWorld declared
          (with_window (mkWindow None 1920 1080 1)
                       (page 1920 1080 (Some "dim"%string))).

(** The 1920 by 1080 page at a device pixel ratio of one half (the browser
    zoomed out) with a generator that keeps returning 0.75, after the script
    body has run, one frame has been drawn and other code has set the
    attribute to "off". *)
Definition zoomedPage : Host :=
  mkHost (mkWindow (Some false) 1920 1080 0.5)
         (mkDocument Interactive false (Some None))
         (mkCanvas 300 150 0 0 [])
         [] [] 1 (fun _ => 0.75%float) 0.

Definition zoomedOut : World :=
  run [Frame 1; VisualsAttr (Some "off"%string)] (boot true zoomedPage).

Definition leftDot : Particle := mkParticle 100 100 0 0 1.
Definition rightDot : Particle := mkParticle 160 100 0 0 1.

Definition twoDots : World :=
  mkWorld (with_particles [leftDot; rightDot] declared) (page 1920 1080 None).

(** Every unordered pair of particles of the array, each pair once, the
    particle with the smaller index first. *)
Fixpoint unorderedPairs (ps : list Particle) : list (Particle * Particle) :=
  match ps with
  | [] => []
  | a :: rest => map (pair a) rest ++ unorderedPairs rest
  end.

(** The listener the script body registers while the document is loading,
    and the six that [init] registers, in its order. *)
Definition waiting : list Listener :=
  [(OnDocument, "DOMContentLoaded"%string, h_init)].

Definition registered : list Listener :=
  [(OnWindow, "resize"%string, h_resize);
   (OnWindow, "mousemove"%string, h_onMove);
   (OnWindow, "touchmove"%string, h_onMove);
   (OnWindow, "mouseout"%string, h_onLeave);
   (OnWindow, "touchend"%string, h_onLeave);
   (OnDocument, "visibilitychange"%string, h_onVisibility)].

(** What scheduling and dispatch depend on; the particle loops leave it
    alone. *)
Definition control (s : World) :=
  (animationId (vars s), mouse (vars s), listeners (host s),
   frames (host s), next_frame (host s), window (host s), document (host s)).

(** The frame handle and the host's pending callbacks agree: a callback is
    pending exactly when [animationId] holds its (non-zero) handle. *)
Definition scheduled_ok (s : World) : Prop :=
  frames (host s) = match animationId (vars s) with
                    | Some id => [id]
                    | None => []
                    end /\
  (forall id, animationId (vars s) = Some id -> id <> 0) /\
  0 < next_frame (host s).

(** Which listeners exist: none (no canvas, or [init] stopped at the gate),
    the one for DOMContentLoaded, or the six of [init], after it or alone. *)
Definition wired (s : World) : Prop :=
  (listeners (host s) = [] /\ animationId (vars s) = None) \/
  (listeners (host s) = waiting /\ animationId (vars s) = None) \/
  (listeners (host s) = registered /\ readyState (doc s) = Interactive) \/
  (listeners (host s) = waiting ++ registered /\
   readyState (doc s) = Interactive).

Definition invariant (s : World) : Prop :=
  scheduled_ok s /\ wired s /\
  mouse_radius (mouse (vars s)) = 90%float /\
  0 <= innerWidth (win s) /\ 0 <= innerHeight (win s).

(** What a handler other than [init] leaves as it was. *)
Definition steady (s s' : World) : Prop :=
  listeners (host s') = listeners (host s) /\
  readyState (doc s') = readyState (doc s) /\
  mouse_radius (mouse (vars s')) = mouse_radius (mouse (vars s)) /\
  win s' = win s.

(** A world in which [init] has registered its listeners and the document
    is past loading. *)
Definition live (s : World) : Prop :=
  readyState (doc s) = Interactive /\
  (listeners (host s) = registered \/
   listeners (host s) = waiting ++ registered).

(** * Properties *)

(** ** The run gate *)

Lemma visualsOff_spec d : visualsOff d = true <-> dataVisuals d = Some "off"%string.
Proof.
  unfold visualsOff, dataVisuals.
  destruct (body d) as [[v|]|]; try (split; discriminate).
  rewrite String.eqb_eq. split; [intros ->; reflexivity | congruence].
Qed.

(** C2. [shouldRun] answers true exactly when the platform reports no
    reduced-motion preference ([window.matchMedia] is missing or its query
    does not match), [window.innerWidth] is greater than 640 and the
    [data-visuals] attribute of the body is not the string "off" (no body,
    an unset attribute and every other value leave it enabled); at a width
    of 640 or less the answer is false whatever the other two inputs are. *)
Theorem shouldRun_iff (s : World) :
  (shouldRun s = true <->
     matchMedia (window (host s)) <> Some true /\
     640 < innerWidth (window (host s)) /\
     body (document (host s)) <> Some (Some "off"%string)) /\
  (innerWidth (window (host s)) <= 640 -> shouldRun s = false).
Proof.
  unfold shouldRun, reducedMotion, visualsOff, win, doc.
  destruct (matchMedia (window (host s))) as [[|]|];
    destruct (Z.leb_spec (innerWidth (window (host s))) 640) as [Hle | Hgt];
    destruct (body (document (host s))) as [[v|]|];
    try destruct (String.eqb_spec v "off") as [-> | Hne];
    (split; [split; [try discriminate; intros _; repeat split;
                     try discriminate; try lia; congruence
                    | try reflexivity; intros (H1 & H2 & H3);
                      first [lia | exfalso; apply H1; reflexivity
                            | exfalso; apply H3; reflexivity]]
            | first [reflexivity | lia]]).
Qed.

Lemma shouldRun_iff_witness :
  (innerWidth (window (host narrow)) <= 640 /\ shouldRun narrow = false) /\
  shouldRun calmPage = false /\
  shouldRun switchedOff = false /\
  shouldRun dimPage = true /\
  shouldRun (mkWorld declared (page 1920 1080 None)) = true.
Proof.
  assert (Hno : forall u,
            (matchMedia (window (host u)) = Some true \/
             body (document (host u)) = Some (Some "off"%string)) ->
            shouldRun u = false).
  { intros u Hu. destruct (shouldRun u) eqn:E; [| reflexivity].
    apply (proj1 (proj1 (shouldRun_iff u))) in E.
    destruct E as (H1 & _ & H3). destruct Hu; contradiction. }
  split; [split |].
  - vm_compute. discriminate.
  - apply (proj2 (shouldRun_iff narrow)). vm_compute. discriminate.
  - split; [apply Hno; left; reflexivity |].
    split; [apply Hno; right; reflexivity |].
    split; apply (proj1 (shouldRun_iff _)); simpl;
      (split; [discriminate | split; [lia | discriminate]]).
Defined.

(** The gate reads nothing but the three inputs. *)
Lemma shouldRun_inputs s s' :
  reducedMotion (win s) = reducedMotion (win s') ->
  innerWidth (win s) = innerWidth (win s') ->
  dataVisuals (doc s) = dataVisuals (doc s') ->
  shouldRun s = shouldRun s'.
Proof.
  intros Hr Hw Hv. unfold shouldRun. rewrite Hr, Hw.
  replace (visualsOff (doc s')) with (visualsOff (doc s)); [reflexivity |].
  revert Hv. unfold visualsOff, dataVisuals.
  destruct (body (doc s)) as [[v|]|], (body (doc s')) as [[v'|]|];
    intros Hv; try reflexivity; try discriminate; try congruence.
Qed.

(** ** resize and the particle count *)

Lemma count_push s : count (push s) = count s + 1.
Proof.
  unfold push, createParticle, random, count; simpl.
  rewrite length_app; simpl. lia.
Qed.

Lemma count_pop s : 0 < count s -> count (pop s) = count s - 1.
Proof.
  unfold pop, count; simpl.
  destruct (particles (vars s)) as [|p ps] eqn:E; [simpl; lia|].
  intros _. rewrite removelast_firstn_len, length_firstn. simpl length. lia.
Qed.

Lemma count_grow target s : count (grow target s) = Z.max (count s) target.
Proof.
  funelim (grow target s).
  - match goal with IH : count (grow _ _) = Z.max _ _ |- _ => rewrite IH end.
    rewrite count_push. lia.
  - lia.
Qed.

Lemma count_trim target s :
  0 <= target -> count (trim target s) = Z.min (count s) target.
Proof.
  intros Ht. funelim (trim target s); try lia.
  match goal with IH : _ -> count (trim _ _) = Z.min _ _ |- _ =>
    rewrite IH by lia end.
  rewrite count_pop by lia. lia.
Qed.

Lemma targetCount_range wn : 30 <= targetCount wn <= 120.
Proof. unfold targetCount. lia. Qed.

Lemma win_push s : win (push s) = win s.
Proof. reflexivity. Qed.

Lemma win_grow target s : win (grow target s) = win s.
Proof.
  funelim (grow target s); [|reflexivity].
  match goal with IH : win (grow _ _) = _ |- _ => rewrite IH end.
  apply win_push.
Qed.

Lemma win_trim target s : win (trim target s) = win s.
Proof.
  funelim (trim target s); try reflexivity.
  match goal with IH : win (trim _ _) = _ |- _ => rewrite IH end.
  reflexivity.
Qed.

Lemma win_resize s : win (resize s) = win s.
Proof. unfold resize. rewrite win_trim, win_grow. reflexivity. Qed.

Lemma count_resize s : count (resize s) = targetCount (win s).
Proof.
  unfold resize.
  pose proof (targetCount_range (win s)).
  rewrite count_trim, count_grow by lia. lia.
Qed.


(** ** init *)

Lemma visualsOff_normalize v s :
  body (doc s) = Some v -> visualsOff (doc (normalize v s)) = visualsOff (doc s).
Proof.
  intros Hb. unfold normalize.
  destruct (falsyString v) eqn:Hf; [| reflexivity].
  unfold visualsOff at 2. rewrite Hb.
  destruct v as [v|]; simpl in *.
  - apply String.eqb_eq in Hf. subst v. reflexivity.
  - reflexivity.
Qed.

Lemma shouldRun_normalize v s :
  body (doc s) = Some v -> shouldRun (normalize v s) = shouldRun s.
Proof.
  intros Hb. unfold shouldRun.
  rewrite (visualsOff_normalize v s Hb).
  replace (win (normalize v s)) with (win s); [reflexivity |].
  unfold normalize. destruct (falsyString v); reflexivity.
Qed.

Lemma count_iter_push n s : count (Nat.iter n push s) = count s + Z.of_nat n.
Proof.
  induction n as [|n IH]; simpl Nat.iter.
  - lia.
  - rewrite count_push, IH. lia.
Qed.

Lemma win_iter_push n s : win (Nat.iter n push s) = win s.
Proof.
  induction n as [|n IH]; simpl Nat.iter; [reflexivity |].
  rewrite win_push. exact IH.
Qed.

(** What [init] leaves behind when the gate lets it through: the array
    filled by [resize] and then filled a second time by the loop that
    follows the call. *)
Lemma init_count s v :
  body (doc s) = Some v -> shouldRun s = true ->
  exists s', init s = Normal s' /\ win s' = win s /\
             count s' = 2 * targetCount (win s).
Proof.
  intros Hb Hrun. unfold init. rewrite Hb.
  rewrite (shouldRun_normalize v s Hb), Hrun. simpl negb. cbv iota.
  set (s0 := normalize v s).
  assert (Hw : win s0 = win s).
  { unfold s0, normalize. destruct (falsyString v); reflexivity. }
  eexists. split; [reflexivity |].
  unfold initToggle, requestAnimationFrame, addEventListener.
  unfold win at 1, count; simpl.
  fold (win (Nat.iter (Z.to_nat (targetCount (win (resize s0)))) push (resize s0))).
  fold (count (Nat.iter (Z.to_nat (targetCount (win (resize s0)))) push (resize s0))).
  rewrite win_iter_push, count_iter_push, win_resize, count_resize, Hw.
  pose proof (targetCount_range (win s)) as Hr. split; [reflexivity |].
  destruct (targetCount (win s)); lia.
Qed.

(** C1 (the code departs from it). The particle count should equal
    clamp(30, 120, floor(area / 16000)) once [init] has completed. On a 1920
    by 1080 page with the run gate open the target is 120, yet the world the
    script body leaves behind holds 240 particles: [init] calls [resize],
    which fills the array to the target, and then pushes the target number
    of particles once more ([init_count]). *)
Theorem init_fills_twice :
  shouldRun desktop = true /\
  reachable desktop /\
  targetCount (win desktop) = 120 /\
  count desktop = 240.
Proof.
  split; [vm_compute; reflexivity |].
  split.
  { apply reach_boot. unfold pristine; simpl. repeat split; lia. }
  destruct (init_count (mkWorld declared (page 1920 1080 None)) None)
    as (s' & Hi & Hw & Hc); try reflexivity.
  unfold desktop, boot; simpl negb; cbv iota. simpl readyState. cbv iota.
  rewrite Hi. simpl world_of. rewrite Hw, Hc. split; reflexivity.
Qed.

(** C9. When the gate denies running at [init] time (the attribute set to
    "off" is one such case), [init] returns and the only thing it has
    changed is the attribute, set to "on" if it was unset or empty: the
    closure variables (no particle, no frame handle), the listeners, the
    pending frames, the canvas and the random generator are as before. *)
Theorem init_denied (s : World) (v : option string) :
  body (doc s) = Some v ->
  shouldRun s = false ->
  init s = Normal (normalize v s) /\
  vars (normalize v s) = vars s /\
  host (normalize v s) =
    with_document
      (mkDocument (readyState (doc s)) (hidden (doc s))
                  (Some (if falsyString v then Some "on"%string else v)))
      (host s) /\
  listeners (host (normalize v s)) = listeners (host s) /\
  frames (host (normalize v s)) = frames (host s) /\
  next_frame (host (normalize v s)) = next_frame (host s) /\
  canvas (host (normalize v s)) = canvas (host s) /\
  draws (host (normalize v s)) = draws (host s).
Proof.
  intros Hb Hrun. split.
  - unfold init. rewrite Hb, (shouldRun_normalize v s Hb), Hrun. reflexivity.
  - unfold normalize. destruct (falsyString v); repeat split; try reflexivity.
    destruct s as [a [wn d c ls fs nf en dr]]; simpl in *.
    destruct d as [rs hid b]; simpl in *. subst b. reflexivity.
Qed.

Lemma init_denied_witness :
  body (doc switchedOff) = Some (Some "off"%string) /\
  shouldRun switchedOff = false /\
  init switchedOff = Normal switchedOff /\
  particles (vars switchedOff) = [] /\
  listeners (host switchedOff) = [] /\
  frames (host switchedOff) = [].
Proof.
  split; [reflexivity |]. split; [reflexivity |].
  split; [| repeat split; reflexivity].
  exact (proj1 (init_denied switchedOff (Some "off"%string) eq_refl eq_refl)).
Defined.

(** ** step *)

Lemma moveAll_fst wn m ps : fst (moveAll wn m ps) = map (advance wn m) ps.
Proof.
  induction ps as [|p ps IH]; [reflexivity |].
  simpl. destruct (moveAll wn m ps) as [rest ops]. simpl in *.
  rewrite IH. reflexivity.
Qed.

Lemma moveAll_snd wn m ps :
  snd (moveAll wn m ps) = flat_map (fun p => drawPoint (advance wn m p)) ps.
Proof.
  induction ps as [|p ps IH]; [reflexivity |].
  simpl moveAll. destruct (moveAll wn m ps) as [rest ops]. simpl in *.
  rewrite IH. reflexivity.
Qed.

(** The running branch of [step], field by field. *)
Lemma step_running s :
  shouldRun s = true ->
  let ps := map (advance (win s) (mouse (vars s))) (particles (vars s)) in
  particles (vars (step s)) = ps /\
  animationId (vars (step s)) = Some (next_frame (host s)) /\
  frames (host (step s)) = frames (host s) ++ [next_frame (host s)] /\
  next_frame (host (step s)) = next_frame (host s) + 1 /\
  mouse (vars (step s)) = mouse (vars s) /\
  listeners (host (step s)) = listeners (host s) /\
  window (host (step s)) = window (host s) /\
  document (host (step s)) = document (host s) /\
  ctx (canvas (host (step s))) =
    ctx (canvas (host s))
    ++ [ClearRect 0 0 (Num.of_Z (innerWidth (win s)))
                      (Num.of_Z (innerHeight (win s)))]
    ++ flat_map drawPoint ps ++ drawLines ps.
Proof.
  intros Hrun. unfold step. rewrite Hrun. simpl negb. cbv iota.
  unfold win at 3. simpl host. simpl vars.
  fold (win s).
  pose proof (moveAll_fst (win s) (mouse (vars s)) (particles (vars s))) as Hf.
  pose proof (moveAll_snd (win s) (mouse (vars s)) (particles (vars s))) as Hs.
  destruct (moveAll (win s) (mouse (vars s)) (particles (vars s))) as [ps ops].
  simpl in Hf, Hs. subst ps ops. cbv zeta.
  simpl. repeat split; try reflexivity.
  rewrite <- !app_assoc. simpl. do 2 f_equal.
  f_equal. induction (particles (vars s)) as [|p ps IH]; [reflexivity |].
  simpl. rewrite IH. reflexivity.
Qed.

(** The stopping branch of [step], field by field. *)
Lemma step_stopping s :
  shouldRun s = false ->
  animationId (vars (step s)) = None /\
  frames (host (step s)) =
    filter (fun k => negb (k =? match animationId (vars s) with
                                | Some n => n
                                | None => 0
                                end)) (frames (host s)) /\
  next_frame (host (step s)) = next_frame (host s) /\
  mouse (vars (step s)) = mouse (vars s) /\
  listeners (host (step s)) = listeners (host s) /\
  window (host (step s)) = window (host s) /\
  document (host (step s)) = document (host s).
Proof.
  intros Hrun. unfold step. rewrite Hrun. simpl. repeat split.
Qed.

(** When the gate fails at the start of [step], the step cancels the frame
    handle and sets it to none, makes one [clearRect] call with the
    canvas's width and height, and returns: the particles are untouched
    (not integrated, not repelled), nothing else is drawn and no frame is
    requested. *)
Theorem step_gate_failed (s : World) :
  shouldRun s = false ->
  animationId (vars (step s)) = None /\
  (forall id, animationId (vars s) = Some id ->
              ~ In id (frames (host (step s)))) /\
  incl (frames (host (step s))) (frames (host s)) /\
  next_frame (host (step s)) = next_frame (host s) /\
  particles (vars (step s)) = particles (vars s) /\
  mouse (vars (step s)) = mouse (vars s) /\
  ctx (canvas (host (step s))) =
    ctx (canvas (host s))
    ++ [ClearRect 0 0 (width (canvas (host s))) (height (canvas (host s)))].
Proof.
  intros Hrun. unfold step. rewrite Hrun. simpl.
  repeat split.
  - intros id Hid Hin. rewrite Hid in Hin.
    apply filter_In in Hin. destruct Hin as [_ Hne].
    rewrite Z.eqb_refl in Hne. discriminate.
  - intros k Hin. apply filter_In in Hin. tauto.
Qed.

Lemma step_gate_failed_witness :
  shouldRun stalled = false /\
  animationId (vars (step stalled)) = None /\
  frames (host (step stalled)) = [].
Proof.
  split; [reflexivity |]. split; [| reflexivity].
  apply (step_gate_failed stalled). reflexivity.
Defined.


(** ** Comparisons of binary64 values *)

Lemma SFcompare_antisym a b :
  SFcompare b a = option_map CompOpp (SFcompare a b).
Proof.
  destruct a as [sa | sa | | sa ma ea], b as [sb | sb | | sb mb eb];
    simpl; try reflexivity;
    try (destruct sa; reflexivity); try (destruct sb; reflexivity);
    try (destruct sa, sb; reflexivity).
  pose proof (Pos.compare_cont_antisym ma mb Eq) as E. simpl in E.
  destruct sa, sb; simpl; try reflexivity;
    rewrite (Z.compare_antisym ea eb);
    destruct (ea ?= eb); simpl; try reflexivity;
    rewrite <- E; try rewrite CompOpp_involutive; reflexivity.
Qed.

Lemma Prim2SF_nan f : Prim2SF f = S754_nan -> PrimFloat.is_nan f = true.
Proof.
  unfold Prim2SF. destruct (PrimFloat.is_nan f); [reflexivity |].
  destruct (PrimFloat.is_zero f); [discriminate |].
  destruct (PrimFloat.is_infinity f); [discriminate |].
  destruct (Z.frexp f) as [r e].
  destruct (shr_fexp _ _ _ _ _) as [sh e'].
  destruct (shr_m sh); discriminate.
Qed.

Lemma SFcompare_total a b :
  a <> S754_nan -> b <> S754_nan -> SFcompare a b <> None.
Proof.
  destruct a as [sa | sa | | sa ma ea], b as [sb | sb | | sb mb eb];
    simpl; intros Ha Hb; congruence.
Qed.

(** [a <= b] excludes [b < a]. *)
Lemma leb_not_gt (a b : float) :
  (a <=? b)%float = true -> (b <? a)%float = false.
Proof.
  rewrite leb_spec, ltb_spec. unfold SFleb, SFltb.
  rewrite (SFcompare_antisym (Prim2SF a) (Prim2SF b)).
  destruct (SFcompare (Prim2SF a) (Prim2SF b)) as [[ | | ]|];
    simpl; congruence.
Qed.

(** Between two numbers, [a < b] failing means [b <= a]. *)
Lemma not_lt_leb (a b : float) :
  PrimFloat.is_nan a = false -> PrimFloat.is_nan b = false ->
  (a <? b)%float = false -> (b <=? a)%float = true.
Proof.
  intros Ha Hb. rewrite leb_spec, ltb_spec. unfold SFleb, SFltb.
  rewrite (SFcompare_antisym (Prim2SF a) (Prim2SF b)).
  pose proof (SFcompare_total (Prim2SF a) (Prim2SF b)) as Ht.
  destruct (SFcompare (Prim2SF a) (Prim2SF b)) as [[ | | ]|];
    simpl; try congruence.
  intros _. exfalso. apply Ht; try reflexivity.
  - intros E. apply Prim2SF_nan in E. congruence.
  - intros E. apply Prim2SF_nan in E. congruence.
Qed.

(** A comparison with NaN is false. *)
Lemma leb_nan_r (a b : float) :
  PrimFloat.is_nan b = true -> (a <=? b)%float = false.
Proof.
  intros Hb. rewrite leb_spec. unfold SFleb.
  assert (E : Prim2SF b = S754_nan) by (unfold Prim2SF; rewrite Hb; reflexivity).
  rewrite E. destruct (Prim2SF a); reflexivity.
Qed.

Lemma leb_refl_number (a : float) :
  PrimFloat.is_nan a = false -> (a <=? a)%float = true.
Proof.
  intros Ha. apply not_lt_leb; try assumption.
  rewrite ltb_spec. unfold SFltb.
  pose proof (SFcompare_antisym (Prim2SF a) (Prim2SF a)) as E.
  destruct (SFcompare (Prim2SF a) (Prim2SF a)) as [[ | | ]|];
    simpl in E; try reflexivity; discriminate.
Qed.

Lemma ltb_leb (a b : float) : (a <? b)%float = true -> (a <=? b)%float = true.
Proof.
  rewrite leb_spec, ltb_spec. unfold SFleb, SFltb.
  destruct (SFcompare (Prim2SF a) (Prim2SF b)) as [[ | | ]|]; congruence.
Qed.

(** ** The wrap on one axis *)

(** On a number, with the far edge a number not below -10, the two tests
    leave the coordinate between -10 and the edge. *)
Lemma wrapAxis_range (edge v : float) :
  PrimFloat.is_nan v = false ->
  PrimFloat.is_nan edge = false ->
  (-10 <=? edge)%float = true ->
  (-10 <=? wrapAxis edge v)%float = true /\
  (wrapAxis edge v <=? edge)%float = true.
Proof.
  intros Hv He Hlow. unfold wrapAxis, Num.gtb.
  destruct (v <? -10)%float eqn:Hlt.
  - rewrite (leb_not_gt edge edge (leb_refl_number edge He)).
    split; [assumption | apply leb_refl_number; assumption].
  - destruct (edge <? v)%float eqn:Hgt.
    + split; [reflexivity | assumption].
    + split; apply not_lt_leb; try assumption. reflexivity.
Qed.

(** Below -10 the coordinate re-enters at the far edge, beyond the far edge
    it re-enters at -10, and in between it stays where it is. *)
Lemma wrapAxis_cases (edge v : float) :
  PrimFloat.is_nan edge = false ->
  ((v <? -10)%float = true -> wrapAxis edge v = edge) /\
  ((v <? -10)%float = false -> (edge <? v)%float = true ->
     wrapAxis edge v = (-10)%float) /\
  ((v <? -10)%float = false -> (edge <? v)%float = false ->
     wrapAxis edge v = v).
Proof.
  intros He. unfold wrapAxis, Num.gtb. repeat split.
  - intros ->. rewrite (leb_not_gt edge edge (leb_refl_number edge He)).
    reflexivity.
  - intros -> ->. reflexivity.
  - intros -> ->. reflexivity.
Qed.

(** NaN passes both tests untouched. *)
Lemma wrapAxis_nan (edge v : float) :
  PrimFloat.is_nan v = true -> wrapAxis edge v = v.
Proof.
  intros Hv. unfold wrapAxis, Num.gtb.
  assert (H1 : (v <? -10)%float = false).
  { destruct (v <? -10)%float eqn:E; [| reflexivity].
    apply ltb_leb in E. rewrite leb_spec in E. unfold SFleb in E.
    assert (En : Prim2SF v = S754_nan) by (unfold Prim2SF; rewrite Hv; reflexivity).
    rewrite En in E. discriminate. }
  rewrite H1.
  destruct (edge <? v)%float eqn:E; [| reflexivity].
  apply ltb_leb in E. rewrite (leb_nan_r edge v Hv) in E. discriminate.
Qed.

(** ** Reachable worlds *)

Lemma control_push s : control (push s) = control s.
Proof. reflexivity. Qed.

Lemma control_pop s : control (pop s) = control s.
Proof. reflexivity. Qed.

Lemma control_grow target s : control (grow target s) = control s.
Proof.
  funelim (grow target s); [| reflexivity].
  match goal with IH : control (grow _ _) = _ |- _ => rewrite IH end.
  apply control_push.
Qed.

Lemma control_trim target s : control (trim target s) = control s.
Proof.
  funelim (trim target s); try reflexivity.
  match goal with IH : control (trim _ _) = _ |- _ => rewrite IH end.
  apply control_pop.
Qed.

Lemma control_resize s : control (resize s) = control s.
Proof. unfold resize. rewrite control_trim, control_grow. reflexivity. Qed.

Lemma control_iter_push n s : control (Nat.iter n push s) = control s.
Proof.
  induction n as [|n IH]; [reflexivity |].
  simpl Nat.iter. rewrite control_push. exact IH.
Qed.

Lemma control_fields s s' :
  control s' = control s ->
  animationId (vars s') = animationId (vars s) /\
  mouse (vars s') = mouse (vars s) /\
  listeners (host s') = listeners (host s) /\
  frames (host s') = frames (host s) /\
  next_frame (host s') = next_frame (host s) /\
  win s' = win s /\ doc s' = doc s.
Proof. unfold control, win, doc. intros H. injection H. intros. tauto. Qed.

(** The invariant reads nothing but [control]. *)
Lemma invariant_control s s' :
  control s' = control s -> invariant s -> invariant s'.
Proof.
  intros Hc. apply control_fields in Hc.
  destruct Hc as (Ha & Hm & Hl & Hf & Hn & Hw & Hd).
  unfold invariant, scheduled_ok, wired.
  rewrite Ha, Hm, Hl, Hf, Hn, Hw, Hd. tauto.
Qed.

Lemma scheduled_frames_none s :
  scheduled_ok s -> animationId (vars s) = None -> frames (host s) = [].
Proof. intros (Hf & _) Hn. rewrite Hf, Hn. reflexivity. Qed.

Lemma truthy_scheduled s :
  scheduled_ok s ->
  truthy (animationId (vars s)) =
    match animationId (vars s) with Some _ => true | None => false end.
Proof.
  intros (_ & Hnz & _). unfold truthy.
  destruct (animationId (vars s)) as [id|]; [| reflexivity].
  specialize (Hnz id eq_refl). destruct (Z.eqb_spec id 0); [contradiction | reflexivity].
Qed.

Lemma filter_other id : filter (fun k => negb (k =? id)) [id] = [].
Proof. simpl. rewrite Z.eqb_refl. reflexivity. Qed.

(** [onVisibility] keeps the handle and the pending callbacks in step, and
    touches nothing else that scheduling depends on. *)
Lemma onVisibility_scheduled s :
  scheduled_ok s ->
  scheduled_ok (onVisibility s) /\
  listeners (host (onVisibility s)) = listeners (host s) /\
  mouse (vars (onVisibility s)) = mouse (vars s) /\
  win (onVisibility s) = win s /\ doc (onVisibility s) = doc s.
Proof.
  intros Hok. pose proof Hok as (Hf & Hnz & Hn).
  unfold onVisibility. rewrite (truthy_scheduled s Hok).
  destruct (hidden (doc s)).
  - destruct (animationId (vars s)) as [id|] eqn:Hid.
    + unfold scheduled_ok; simpl. rewrite Hf, filter_other.
      repeat split; try assumption; try reflexivity; discriminate.
    + unfold scheduled_ok; simpl. rewrite Hf.
      repeat split; try assumption; try reflexivity; discriminate.
  - destruct (animationId (vars s)) as [id|] eqn:Hid; simpl negb; simpl andb.
    + split; [exact Hok | repeat split].
    + destruct (shouldRun s).
      * unfold scheduled_ok; simpl. rewrite Hf. simpl.
        repeat split; try lia.
        intros id E. injection E as <-. lia.
      * split; [exact Hok | repeat split].
Qed.

(** A frame callback that runs leaves the handle and the pending callbacks
    in step again. *)
Lemma frame_scheduled id s :
  scheduled_ok s ->
  scheduled_ok (deliver (Frame id) s) /\
  listeners (host (deliver (Frame id) s)) = listeners (host s) /\
  mouse (vars (deliver (Frame id) s)) = mouse (vars s) /\
  win (deliver (Frame id) s) = win s /\ doc (deliver (Frame id) s) = doc s.
Proof.
  intros Hok. pose proof Hok as (Hf & Hnz & Hn).
  unfold deliver.
  destruct (existsb (Z.eqb id) (frames (host s))) eqn:Hex;
    [| split; [exact Hok | repeat split]].
  apply existsb_exists in Hex. destruct Hex as (k & Hin & Hk).
  apply Z.eqb_eq in Hk. subst k.
  destruct (animationId (vars s)) as [id'|] eqn:Hid;
    rewrite Hf in Hin; simpl in Hin; [| contradiction].
  destruct Hin as [-> | []].
  set (s1 := set_host _ s).
  assert (Hf1 : frames (host s1) = []).
  { unfold s1; simpl. rewrite Hf. apply filter_other. }
  destruct (shouldRun s1) eqn:Hrun.
  - destruct (step_running s1 Hrun) as (_ & Ha & Hfr & Hnx & Hm & Hl & Hw & Hd & _).
    unfold scheduled_ok, win, doc. rewrite Ha, Hfr, Hnx, Hf1, Hm, Hl, Hw, Hd.
    unfold s1; simpl. repeat split; try lia.
    intros k E. injection E as <-. lia.
  - destruct (step_stopping s1 Hrun) as (Ha & Hfr & Hnx & Hm & Hl & Hw & Hd).
    unfold scheduled_ok, win, doc. rewrite Ha, Hfr, Hnx, Hf1, Hm, Hl, Hw, Hd.
    unfold s1; simpl. repeat split; try assumption; discriminate.
Qed.

Lemma normalize_fields v s :
  vars (normalize v s) = vars s /\
  listeners (host (normalize v s)) = listeners (host s) /\
  frames (host (normalize v s)) = frames (host s) /\
  next_frame (host (normalize v s)) = next_frame (host s) /\
  win (normalize v s) = win s /\
  readyState (doc (normalize v s)) = readyState (doc s) /\
  hidden (doc (normalize v s)) = hidden (doc s).
Proof. unfold normalize. destruct (falsyString v); repeat split. Qed.

(** [init] on a world with no frame scheduled: it either leaves the
    listeners and the handle alone (it threw, or stopped at the gate), or
    appends its six listeners and schedules the first frame. *)
Lemma init_scheduled s :
  scheduled_ok s -> animationId (vars s) = None ->
  let s' := world_of (init s) in
  scheduled_ok s' /\
  mouse (vars s') = mouse (vars s) /\
  win s' = win s /\
  readyState (doc s') = readyState (doc s) /\
  ((listeners (host s') = listeners (host s) /\ animationId (vars s') = None) \/
   listeners (host s') = listeners (host s) ++ registered).
Proof.
  intros Hok Hnone. pose proof Hok as (Hf & Hnz & Hn).
  rewrite Hnone in Hf. cbv zeta. unfold init.
  destruct (body (doc s)) as [v|]; simpl world_of;
    [| split; [exact Hok | repeat split; left; split; [reflexivity | assumption]]].
  destruct (normalize_fields v s) as (Nv & Nl & Nf & Nn & Nw & Nr & _).
  set (s0 := normalize v s) in *.
  destruct (shouldRun s0); simpl negb; cbv iota; simpl world_of.
  - set (s2 := Nat.iter (Z.to_nat (targetCount (win (resize s0)))) push (resize s0)).
    assert (Hc : control s2 = control s0).
    { unfold s2. rewrite control_iter_push. apply control_resize. }
    apply control_fields in Hc.
    destruct Hc as (Ca & Cm & Cl & Cf & Cn & Cw & Cd).
    clearbody s2.
    unfold scheduled_ok, win, doc in *; simpl.
    rewrite Cf, Cn, Cm, Cl, Cw, Cd, Nf, Nn, Nl, Nv, Hf. simpl.
    repeat split; try lia; try assumption.
    + intros id E. injection E as <-. lia.
    + right. unfold registered. rewrite <- !app_assoc. reflexivity.
  - unfold scheduled_ok. rewrite Nv, Nl, Nf, Nn, Nw, Nr, Hnone.
    repeat split; try assumption; try discriminate.
    left. split; reflexivity.
Qed.

Lemma steady_refl s : steady s s.
Proof. repeat split. Qed.

Lemma steady_trans s1 s2 s3 : steady s1 s2 -> steady s2 s3 -> steady s1 s3.
Proof.
  unfold steady. intros (A1 & A2 & A3 & A4) (B1 & B2 & B3 & B4).
  rewrite B1, B2, B3, B4. tauto.
Qed.

Lemma call_scheduled f e s :
  f <> h_init -> scheduled_ok s ->
  scheduled_ok (call f e s) /\ steady s (call f e s).
Proof.
  intros Hf Hok. destruct f; simpl call; try contradiction.
  - pose proof (control_fields _ _ (control_resize s))
      as (Ha & Hm & Hl & Hfr & Hn & Hw & Hd).
    unfold scheduled_ok, steady. rewrite Ha, Hm, Hl, Hfr, Hn, Hw, Hd.
    destruct Hok as (? & ? & ?). repeat split; assumption.
  - split; [exact Hok | repeat split].
  - split; [exact Hok | repeat split].
  - destruct (onVisibility_scheduled s Hok) as (H1 & Hl & Hm & Hw & Hd).
    split; [exact H1 |]. unfold steady. rewrite Hl, Hm, Hw, Hd. repeat split.
Qed.

Lemma fold_call_scheduled e (ls : list Listener) s :
  Forall (fun l => snd l <> h_init) ls -> scheduled_ok s ->
  scheduled_ok (fold_left (fun s l => call (snd l) e s) ls s) /\
  steady s (fold_left (fun s l => call (snd l) e s) ls s).
Proof.
  intros Hall. revert s. induction Hall as [| l ls Hl _ IH]; intros s Hok.
  - split; [exact Hok | apply steady_refl].
  - simpl. destruct (call_scheduled (snd l) e s Hl Hok) as (H1 & H2).
    destruct (IH _ H1) as (H3 & H4).
    split; [exact H3 | eapply steady_trans; eassumption].
Qed.

(** A dispatch to the listeners of [init] (after the one of the script body
    or not), for an event other than DOMContentLoaded. *)
Lemma dispatch_scheduled t ty e s :
  ty <> "DOMContentLoaded"%string ->
  listeners (host s) = registered \/ listeners (host s) = waiting ++ registered ->
  scheduled_ok s ->
  scheduled_ok (dispatch t ty e s) /\ steady s (dispatch t ty e s).
Proof.
  intros Hty Hl Hok. unfold dispatch.
  apply fold_call_scheduled; [| exact Hok].
  apply Forall_forall. intros l Hin. apply filter_In in Hin.
  destruct Hin as [Hin Hlis].
  destruct Hl as [Hl | Hl]; rewrite Hl in Hin; simpl in Hin;
    repeat (destruct Hin as [<- | Hin]; [try discriminate |]);
    try contradiction.
  exfalso. apply Hty. destruct t; simpl in Hlis; try discriminate.
  apply String.eqb_eq in Hlis. exact Hlis.
Qed.

(** With no listener of [init] registered, only DOMContentLoaded reaches the
    script. *)
Lemma dispatch_idle t ty e s :
  ty <> "DOMContentLoaded"%string ->
  listeners (host s) = [] \/ listeners (host s) = waiting ->
  dispatch t ty e s = s.
Proof.
  intros Hty Hl. unfold dispatch.
  destruct Hl as [Hl | Hl]; rewrite Hl; [reflexivity |].
  simpl. destruct t; simpl; [reflexivity |].
  destruct (String.eqb_spec ty "DOMContentLoaded"); [contradiction | reflexivity].
Qed.

Lemma invariant_dispatch t ty e s :
  ty <> "DOMContentLoaded"%string ->
  invariant s -> invariant (dispatch t ty e s).
Proof.
  intros Hty (Hok & Hw & Hr & Hiw & Hih).
  destruct Hw as [[Hl Ha] | [[Hl Ha] | [[Hl Hrs] | [Hl Hrs]]]].
  - rewrite dispatch_idle by auto. unfold invariant, wired. tauto.
  - rewrite dispatch_idle by auto. unfold invariant, wired. tauto.
  - destruct (dispatch_scheduled t ty e s Hty (or_introl Hl) Hok)
      as (Hok' & Sl & Sr & Sm & Sw).
    unfold invariant, wired. rewrite Sl, Sr, Sm, Sw. tauto.
  - destruct (dispatch_scheduled t ty e s Hty (or_intror Hl) Hok)
      as (Hok' & Sl & Sr & Sm & Sw).
    unfold invariant, wired. rewrite Sl, Sr, Sm, Sw. tauto.
Qed.

(** Changes of the page that run no code of the script. *)
Lemma invariant_window s m iw ih dpr :
  0 <= iw -> 0 <= ih -> invariant s ->
  invariant (set_host (with_window (mkWindow m iw ih dpr)) s).
Proof.
  intros Hiw Hih (Hok & Hw & Hr & _ & _).
  unfold invariant, scheduled_ok, wired, win, doc in *. simpl. tauto.
Qed.

Lemma invariant_document s hid b :
  invariant s ->
  invariant (set_host (with_document
               (mkDocument (readyState (doc s)) hid b)) s).
Proof.
  intros (Hok & Hw & Hr & Hiw & Hih).
  unfold invariant, scheduled_ok, wired, win, doc in *. simpl. tauto.
Qed.

Theorem invariant_deliver ev s : invariant s -> invariant (deliver ev s).
Proof.
  intros Hinv. destruct ev; simpl deliver.
  - apply invariant_dispatch; [discriminate |].
    apply invariant_window; try lia. assumption.
  - apply invariant_dispatch; [discriminate | assumption].
  - apply invariant_dispatch; [discriminate | assumption].
  - apply invariant_dispatch; [discriminate | assumption].
  - apply invariant_dispatch; [discriminate | assumption].
  - apply invariant_dispatch; [discriminate |].
    apply invariant_document. assumption.
  - destruct (readyState (doc s)) eqn:Hrs; [| assumption].
    destruct Hinv as (Hok & Hw & Hr & Hiw & Hih).
    set (s1 := set_host _ s).
    assert (Hok1 : scheduled_ok s1) by exact Hok.
    destruct Hw as [[Hl Ha] | [[Hl Ha] | [[Hl Hi] | [Hl Hi]]]];
      try congruence.
    + unfold dispatch. replace (listeners (host s1)) with (@nil Listener).
      simpl. unfold invariant.
      split; [exact Hok1 |]. split; [| repeat split; assumption].
      left. split; assumption.
    + unfold dispatch. replace (listeners (host s1)) with waiting.
      simpl.
      destruct (init_scheduled s1 Hok1 Ha) as (Hok' & Hm & Hw' & Hr' & Hcase).
      unfold invariant. rewrite Hm, Hw'.
      split; [exact Hok' |]. split; [| repeat split; assumption].
      unfold wired. rewrite Hr'.
      destruct Hcase as [[Hl' Ha'] | Hl'].
      * right; left. split; [rewrite Hl'; exact Hl | exact Ha'].
      * right; right; right. split; [rewrite Hl'|reflexivity].
        change (listeners (host s1)) with (listeners (host s)).
        rewrite Hl. reflexivity.
  - destruct Hinv as (Hok & Hw & Hr & Hiw & Hih).
    destruct (frame_scheduled id s Hok) as (Hok' & Hl & Hm & Hw' & Hd).
    assert (Hidle : animationId (vars s) = None ->
                    deliver (Frame id) s = s).
    { intros Ha. simpl. rewrite (scheduled_frames_none s Hok Ha). reflexivity. }
    change (invariant (deliver (Frame id) s)).
    unfold invariant, wired. rewrite Hl, Hm, Hw', Hd.
    split; [exact Hok' |]. split; [| repeat split; assumption].
    destruct Hw as [[? Ha] | [[? Ha] | [? | ?]]]; try tauto;
      rewrite (Hidle Ha); tauto.
  - destruct (body (doc s)); [| assumption].
    apply invariant_document. assumption.
  - pose proof Hinv as (_ & _ & _ & Hiw & Hih).
    apply invariant_window; assumption.
Qed.

Lemma invariant_boot found a : pristine a -> invariant (boot found a).
Proof.
  intros (Hf & Hl & Hn & Hiw & Hih).
  assert (Hok : scheduled_ok (mkWorld declared a)).
  { unfold scheduled_ok; simpl. repeat split; try assumption. discriminate. }
  unfold boot. destruct found; simpl negb; cbv iota.
  - destruct (readyState (document a)) eqn:Hrs.
    + unfold invariant, scheduled_ok, wired, win, doc; simpl.
      rewrite Hf, Hl. repeat split; try assumption; try discriminate.
      right; left. split; reflexivity.
    + destruct (init_scheduled (mkWorld declared a) Hok eq_refl)
        as (Hok' & Hm & Hw & Hr & Hcase).
      unfold invariant. rewrite Hm, Hw.
      split; [exact Hok' |]. split; [| repeat split; assumption].
      unfold wired. rewrite Hr.
      destruct Hcase as [[Hl' Ha'] | Hl']; simpl in Hl'; rewrite Hl in Hl'.
      * left. split; assumption.
      * right; right; left. split; [exact Hl' | exact Hrs].
  - unfold invariant, wired. split; [exact Hok |].
    split; [left; split; [exact Hl | reflexivity] |].
    repeat split; assumption.
Qed.

Theorem reachable_invariant s : reachable s -> invariant s.
Proof.
  induction 1 as [found a Hp | ev s _ IH].
  - apply invariant_boot. exact Hp.
  - apply invariant_deliver. exact IH.
Qed.

Lemma reachable_run evs s : reachable s -> reachable (run evs s).
Proof.
  revert s. induction evs as [|ev evs IH]; intros s Hs; [exact Hs |].
  simpl. apply IH. apply reach_deliver. exact Hs.
Qed.

(** The listener of visibilitychange is there only with the other five. *)
Lemma visibility_listener s :
  invariant s ->
  In (OnDocument, "visibilitychange"%string, h_onVisibility) (listeners (host s)) ->
  listeners (host s) = registered \/ listeners (host s) = waiting ++ registered.
Proof.
  intros (_ & Hw & _) Hin.
  destruct Hw as [[Hl _] | [[Hl _] | [[Hl _] | [Hl _]]]]; try tauto;
    rewrite Hl in Hin; simpl in Hin.
  - contradiction.
  - destruct Hin as [E | []]. discriminate.
Qed.

Lemma dispatch_visibility e s :
  listeners (host s) = registered \/ listeners (host s) = waiting ++ registered ->
  dispatch OnDocument "visibilitychange" e s = onVisibility s.
Proof.
  intros [Hl | Hl]; unfold dispatch; rewrite Hl; reflexivity.
Qed.

(** C4. In every reachable world at most one frame callback is pending.
    Where [init] has registered the visibility listener, the document
    becoming hidden leaves no callback pending and the handle at none; the
    document becoming visible while nothing is pending and the gate passes
    leaves exactly one callback pending, the one whose handle
    [animationId] then holds. *)
Theorem one_frame_at_a_time (s : World) :
  reachable s ->
  (length (frames (host s)) <= 1)%nat /\
  (In (OnDocument, "visibilitychange"%string, h_onVisibility)
      (listeners (host s)) ->
   frames (host (deliver (VisibilityChange true) s)) = [] /\
   animationId (vars (deliver (VisibilityChange true) s)) = None) /\
  (In (OnDocument, "visibilitychange"%string, h_onVisibility)
      (listeners (host s)) ->
   frames (host s) = [] ->
   shouldRun s = true ->
   frames (host (deliver (VisibilityChange false) s)) = [next_frame (host s)] /\
   animationId (vars (deliver (VisibilityChange false) s)) =
     Some (next_frame (host s))).
Proof.
  intros Hreach. pose proof (reachable_invariant s Hreach) as Hinv.
  pose proof Hinv as (Hok & _). pose proof Hok as (Hf & Hnz & Hn).
  split; [| split].
  - rewrite Hf. destruct (animationId (vars s)); simpl; lia.
  - intros Hin. pose proof (visibility_listener s Hinv Hin) as Hl.
    simpl deliver. rewrite dispatch_visibility by exact Hl.
    set (s1 := set_host _ s).
    assert (Hok1 : scheduled_ok s1) by exact Hok.
    unfold onVisibility. rewrite (truthy_scheduled s1 Hok1).
    change (hidden (doc s1)) with true. cbv iota.
    change (animationId (vars s1)) with (animationId (vars s)).
    destruct (animationId (vars s)) as [id|] eqn:Hid; simpl.
    + rewrite Hf, filter_other. split; reflexivity.
    + rewrite Hf. split; reflexivity.
  - intros Hin Hnone Hrun. pose proof (visibility_listener s Hinv Hin) as Hl.
    simpl deliver. rewrite dispatch_visibility by exact Hl.
    set (s1 := set_host _ s).
    assert (Hok1 : scheduled_ok s1) by exact Hok.
    unfold onVisibility. rewrite (truthy_scheduled s1 Hok1).
    change (hidden (doc s1)) with false. cbv iota.
    change (animationId (vars s1)) with (animationId (vars s)).
    change (shouldRun s1) with (shouldRun s). rewrite Hrun.
    destruct (animationId (vars s)) as [id|] eqn:Hid.
    + rewrite Hnone in Hf. discriminate.
    + simpl. rewrite Hnone. split; reflexivity.
Qed.

Lemma one_frame_at_a_time_witness :
  reachable (deliver (VisibilityChange true) desktop) /\
  frames (host (deliver (VisibilityChange true) desktop)) = [] /\
  shouldRun (deliver (VisibilityChange true) desktop) = true /\
  frames (host (deliver (VisibilityChange false)
                        (deliver (VisibilityChange true) desktop))) = [2].
Proof.
  assert (Hr : reachable (deliver (VisibilityChange true) desktop)).
  { apply reach_deliver, reach_boot. unfold pristine; simpl.
    repeat split; lia. }
  split; [exact Hr |]. split; [vm_compute; reflexivity |].
  split; [vm_compute; reflexivity |].
  change [2] with [next_frame (host (deliver (VisibilityChange true) desktop))].
  apply (proj2 (proj2 (one_frame_at_a_time _ Hr))).
  - vm_compute. auto 10.
  - vm_compute. reflexivity.
  - vm_compute. reflexivity.
Defined.

(** ** The stop and the surface *)

(** The one pending frame callback running in a world where the run gate
    fails. *)
Lemma stop_frame (d : World) (id : Z) :
  frames (host d) = [id] ->
  shouldRun d = false ->
  ctx (canvas (host (deliver (Frame id) d)))
    = ctx (canvas (host d))
      ++ [ClearRect 0 0 (width (canvas (host d))) (height (canvas (host d)))] /\
  animationId (vars (deliver (Frame id) d)) = None.
Proof.
  intros Hf Hrun. simpl deliver. rewrite Hf. simpl existsb.
  rewrite Z.eqb_refl. simpl orb. cbv iota.
  match goal with |- context [step ?u] => set (s1 := u) end.
  assert (Hrun1 : shouldRun s1 = false) by exact Hrun.
  unfold step. rewrite Hrun1. simpl. split; reflexivity.
Qed.

(** C8 (the code departs from it). When the run gate fails, the step
    should clear the drawing surface. [resize] leaves the transform
    [setTransform(dpr, 0, 0, dpr, 0, 0)] in force, and the stopping branch
    calls [clearRect(0, 0, canvas.width, canvas.height)], sizes that are
    already in bitmap pixels. On the 1920 by 1080 page at a device pixel
    ratio of one half the canvas is 960 by 540; the first frame draws its
    particles around (1440, 810), that is around bitmap pixel (720, 405);
    when the attribute turns "off" the next frame stops with
    [clearRect(0, 0, 960, 540)], which under the scale one half reaches 480
    by 270 bitmap pixels, so the particles stay on the surface. The other
    parts of the stop are as [step_gate_failed] says, and the [clearRect] of
    a running step, over [innerWidth] by [innerHeight], reaches the whole
    bitmap. *)
Theorem stop_clears_a_quarter :
  reachable zoomedOut /\
  shouldRun zoomedOut = false /\
  frames (host zoomedOut) = [2] /\
  width (canvas (host zoomedOut)) = 960%float /\
  height (canvas (host zoomedOut)) = 540%float /\
  scaleInForce (ctx (canvas (host zoomedOut))) = (0.5%float, 0.5%float) /\
  (exists x y r a0 a1,
     nth_error (ctx (canvas (host zoomedOut))) 4 = Some (Arc x y r a0 a1) /\
     (480 <? 0.5 * (x - r))%float = true /\
     (270 <? 0.5 * (y - r))%float = true) /\
  ctx (canvas (host (deliver (Frame 2) zoomedOut)))
    = ctx (canvas (host zoomedOut)) ++ [ClearRect 0 0 960 540] /\
  animationId (vars (deliver (Frame 2) zoomedOut)) = None /\
  clearedExtent (ctx (canvas (host zoomedOut))) 960 540
    = (480%float, 270%float) /\
  (480 <? width (canvas (host zoomedOut)))%float = true /\
  (270 <? height (canvas (host zoomedOut)))%float = true /\
  clearedExtent (ctx (canvas (host zoomedOut)))
                (Num.of_Z (innerWidth (window (host zoomedOut))))
                (Num.of_Z (innerHeight (window (host zoomedOut))))
    = (960%float, 540%float).
Proof.
  assert (Hr : reachable zoomedOut).
  { apply reachable_run, reach_boot. unfold pristine; simpl.
    repeat split; lia. }
  assert (Hrun : shouldRun zoomedOut = false) by (vm_compute; reflexivity).
  assert (Hf : frames (host zoomedOut) = [2]) by (vm_compute; reflexivity).
  assert (Hw : width (canvas (host zoomedOut)) = 960%float)
    by (vm_compute; reflexivity).
  assert (Hh : height (canvas (host zoomedOut)) = 540%float)
    by (vm_compute; reflexivity).
  assert (Hsc : scaleInForce (ctx (canvas (host zoomedOut)))
                = (0.5%float, 0.5%float)) by (vm_compute; reflexivity).
  assert (Harc : exists x y r a0 a1,
             nth_error (ctx (canvas (host zoomedOut))) 4
               = Some (Arc x y r a0 a1) /\
             (480 <? 0.5 * (x - r))%float = true /\
             (270 <? 0.5 * (y - r))%float = true).
  { do 5 eexists. split; [vm_compute; reflexivity |].
    split; vm_compute; reflexivity. }
  assert (Hiw : Num.of_Z (innerWidth (window (host zoomedOut))) = 1920%float)
    by (vm_compute; reflexivity).
  assert (Hih : Num.of_Z (innerHeight (window (host zoomedOut))) = 1080%float)
    by (vm_compute; reflexivity).
  destruct (stop_frame zoomedOut 2 Hf Hrun) as (Hc & Ha).
  revert Hr Hrun Hf Hw Hh Hsc Harc Hiw Hih Hc Ha.
  generalize zoomedOut. intros d Hr Hrun Hf Hw Hh Hsc Harc Hiw Hih Hc Ha.
  unfold clearedExtent. rewrite Hc, Hw, Hh, Hsc, Hiw, Hih.
  split; [exact Hr |]. split; [exact Hrun |]. split; [exact Hf |].
  split; [reflexivity |]. split; [reflexivity |]. split; [reflexivity |].
  split; [exact Harc |].
  split; [reflexivity |]. split; [exact Ha |].
  repeat split; reflexivity.
Qed.

(** ** The lines between close particles *)

Lemma flat_map_map_compose {A B C} (g : A -> B) (f : B -> list C) (l : list A) :
  flat_map f (map g l) = flat_map (fun x => f (g x)) l.
Proof.
  induction l as [|x l IH]; [reflexivity |].
  simpl. rewrite IH. reflexivity.
Qed.

(** A loop over the indices of an array visits its elements in order. *)
Lemma flat_map_indices {A C} (f : A -> list C) (l : list A) :
  flat_map (fun j => match nth_error l j with
                     | Some b => f b
                     | None => []
                     end) (seq 0 (length l))
  = flat_map f l.
Proof.
  induction l as [|x l IH]; [reflexivity |].
  simpl length. rewrite <- cons_seq, <- seq_shift. simpl flat_map.
  rewrite flat_map_map_compose. simpl nth_error. rewrite IH. reflexivity.
Qed.

Lemma drawLines_cons a rest :
  drawLines (a :: rest) = flat_map (link a) rest ++ drawLines rest.
Proof.
  unfold drawLines. simpl length.
  rewrite <- cons_seq. simpl flat_map.
  rewrite Nat.sub_0_r. f_equal.
  - rewrite <- seq_shift, flat_map_map_compose. simpl nth_error.
    apply flat_map_indices.
  - rewrite <- seq_shift, flat_map_map_compose.
    apply flat_map_ext. intros i.
    replace (S (length rest) - S (S i))%nat with (length rest - S i)%nat by lia.
    rewrite <- seq_shift, flat_map_map_compose. reflexivity.
Qed.

Lemma drawLines_pairs ps :
  drawLines ps = flat_map (fun ab => link (fst ab) (snd ab)) (unorderedPairs ps).
Proof.
  induction ps as [|a rest IH]; [reflexivity |].
  rewrite drawLines_cons. simpl unorderedPairs.
  rewrite flat_map_app, flat_map_map_compose, IH. reflexivity.
Qed.





(** ** Repulsion *)

Lemma advance_fields wn m p :
  let q := wrap wn (integrate p) in
  p_x (advance wn m p) = p_x q /\
  p_y (advance wn m p) = p_y q /\
  p_r (advance wn m p) = p_r p /\
  p_vx q = p_vx p /\ p_vy q = p_vy p.
Proof.
  cbv zeta. unfold advance, repel.
  destruct (notNull (mouse_x m)); [| repeat split].
  destruct (_ <? _)%float; repeat split.
Qed.

(** In a frame step of a reachable world the i-th particle is first moved
    and wrapped; with d its Euclidean distance to an active pointer, d < 90
    adds to its velocity the offset from the pointer divided by d times 0.6
    times (90 - d) / 90; at d >= 90, and whenever d < 90 fails or no pointer
    is active, the velocity is left as it was. *)
Theorem repulsion_increment (s : World) (i : nat) (p : Particle) :
  reachable s ->
  shouldRun s = true ->
  nth_error (particles (vars s)) i = Some p ->
  let m := mouse (vars s) in
  let q := wrap (win s) (integrate p) in
  let d := pointerDist m q in
  exists p',
    nth_error (particles (vars (step s))) i = Some p' /\
    p_x p' = p_x q /\ p_y p' = p_y q /\
    (notNull (mouse_x m) = true -> (d <? 90)%float = true ->
       p_vx p' = (p_vx p + (offsetX m q / d) * 0.6 * ((90 - d) / 90))%float /\
       p_vy p' = (p_vy p + (offsetY m q / d) * 0.6 * ((90 - d) / 90))%float) /\
    ((90 <=? d)%float = true -> p_vx p' = p_vx p /\ p_vy p' = p_vy p) /\
    ((d <? 90)%float = false -> p_vx p' = p_vx p /\ p_vy p' = p_vy p) /\
    (notNull (mouse_x m) = false -> p_vx p' = p_vx p /\ p_vy p' = p_vy p).
Proof.
  intros Hreach Hrun Hp. cbv zeta.
  pose proof (reachable_invariant s Hreach) as (_ & _ & Hrad & _).
  destruct (step_running s Hrun) as (Hps & _). cbv zeta in Hps.
  exists (advance (win s) (mouse (vars s)) p).
  split; [rewrite Hps, nth_error_map, Hp; reflexivity |].
  destruct (advance_fields (win s) (mouse (vars s)) p) as (Hx & Hy & _ & Hvx & Hvy).
  cbv zeta in Hx, Hy, Hvx, Hvy.
  split; [exact Hx |]. split; [exact Hy |].
  assert (Hoff : (pointerDist (mouse (vars s)) (wrap (win s) (integrate p)) <? 90)%float = false ->
                 p_vx (advance (win s) (mouse (vars s)) p) = p_vx p /\
                 p_vy (advance (win s) (mouse (vars s)) p) = p_vy p).
  { intros Hd. unfold advance, repel. rewrite Hrad, Hd.
    destruct (notNull (mouse_x (mouse (vars s)))); split; assumption. }
  split; [| split; [| split]].
  - intros Hnn Hd. unfold advance, repel. rewrite Hnn, Hrad, Hd.
    split; reflexivity.
  - intros Hge. apply Hoff. apply leb_not_gt. exact Hge.
  - exact Hoff.
  - intros Hnull. unfold advance, repel. rewrite Hnull. split; assumption.
Qed.

Lemma repulsion_increment_witness :
  reachable (deliver (MouseMove 1000 540) desktop) /\
  shouldRun (deliver (MouseMove 1000 540) desktop) = true /\
  nth_error (particles (vars (deliver (MouseMove 1000 540) desktop))) 0
    = Some (mkParticle 960 540 0 0 1.5) /\
  exists p',
    nth_error (particles (vars (step (deliver (MouseMove 1000 540) desktop)))) 0
      = Some p' /\
    p_vx p' = (0 + ((960 - 1000) / 40) * 0.6 * ((90 - 40) / 90))%float /\
    p_vy p' = 0%float.
Proof.
  assert (Hr : reachable (deliver (MouseMove 1000 540) desktop)).
  { apply reach_deliver, reach_boot. unfold pristine; simpl.
    repeat split; lia. }
  assert (Hrun : shouldRun (deliver (MouseMove 1000 540) desktop) = true)
    by (vm_compute; reflexivity).
  assert (Hp : nth_error (particles (vars (deliver (MouseMove 1000 540) desktop))) 0
               = Some (mkParticle 960 540 0 0 1.5))
    by (vm_compute; reflexivity).
  split; [exact Hr |]. split; [exact Hrun |]. split; [exact Hp |].
  pose proof (repulsion_increment _ 0%nat _ Hr Hrun Hp) as H.
  cbv zeta in H. destruct H as (p' & Hn & _ & _ & Hin & _).
  exists p'. split; [exact Hn |].
  assert (H1 : notNull (mouse_x (mouse (vars (deliver (MouseMove 1000 540)
                                                      desktop)))) = true)
    by (vm_compute; reflexivity).
  specialize (Hin H1). vm_compute in Hin. specialize (Hin eq_refl).
  vm_compute. exact Hin.
Defined.

(** ** Non-finite velocities and positions *)

(** The wrap at the level of a step, for a particle whose moved coordinates
    are numbers. *)
Lemma step_wrap_range (s : World) (i : nat) (p : Particle) :
  shouldRun s = true ->
  nth_error (particles (vars s)) i = Some p ->
  let ex := (Num.of_Z (innerWidth (win s)) + 10)%float in
  let ey := (Num.of_Z (innerHeight (win s)) + 10)%float in
  PrimFloat.is_nan ex = false -> (-10 <=? ex)%float = true ->
  PrimFloat.is_nan ey = false -> (-10 <=? ey)%float = true ->
  PrimFloat.is_nan (p_x p + p_vx p) = false ->
  PrimFloat.is_nan (p_y p + p_vy p) = false ->
  exists p',
    nth_error (particles (vars (step s))) i = Some p' /\
    (-10 <=? p_x p')%float = true /\ (p_x p' <=? ex)%float = true /\
    (-10 <=? p_y p')%float = true /\ (p_y p' <=? ey)%float = true.
Proof.
  intros Hrun Hp ex ey Hex Hlx Hey Hly Hx Hy.
  destruct (step_running s Hrun) as (Hps & _). cbv zeta in Hps.
  exists (advance (win s) (mouse (vars s)) p).
  split; [rewrite Hps, nth_error_map, Hp; reflexivity |].
  destruct (advance_fields (win s) (mouse (vars s)) p) as (Ex & Ey & _).
  cbv zeta in Ex, Ey. rewrite Ex, Ey. simpl p_x. simpl p_y.
  destruct (wrapAxis_range ex (p_x p + p_vx p) Hx Hex Hlx).
  destruct (wrapAxis_range ey (p_y p + p_vy p) Hy Hey Hly).
  repeat split; assumption.
Qed.

(** C10 (the code departs from it). The repulsion should leave both
    velocity components finite for every particle within the radius, a
    particle on the pointer included. Such a particle is within the radius
    (distance 0), and the repulsion divides its zero offset by that zero
    distance: both components come out NaN. The world is the one a 1920 by
    1080 page reaches when the generator returns 0.5, the pointer moves to
    (960, 540) and one frame runs. *)
Theorem repel_on_pointer_nan :
  let m := mkMouse (Number 960) (Number 540) 90 in
  let p := mkParticle 960 540 0 0 1.5 in
  let s := run [MouseMove 960 540; Frame 1] desktop in
  pointerDist m p = 0%float /\
  (pointerDist m p <? mouse_radius m)%float = true /\
  PrimFloat.is_finite (p_vx (repel m p)) = false /\
  PrimFloat.is_finite (p_vy (repel m p)) = false /\
  PrimFloat.is_nan (p_vx (repel m p)) = true /\
  PrimFloat.is_nan (p_vy (repel m p)) = true /\
  nth_error (particles (vars (run [MouseMove 960 540] desktop))) 0 = Some p /\
  mouse (vars (run [MouseMove 960 540] desktop)) = m /\
  reachable s /\
  exists p',
    nth_error (particles (vars s)) 0 = Some p' /\
    p_x p' = 960%float /\ p_y p' = 540%float /\
    PrimFloat.is_nan (p_vx p') = true /\ PrimFloat.is_nan (p_vy p') = true.
Proof.
  cbv zeta. do 8 (split; [vm_compute; reflexivity |]).
  split.
  - apply reachable_run, reach_boot. unfold pristine; simpl.
    repeat split; lia.
  - eexists. split; [vm_compute; reflexivity |].
    repeat split; vm_compute; reflexivity.
Qed.

(** C5 (the code departs from it). After the wrap phase of a frame step
    every particle should lie within [-10, width + 10] by
    [-10, height + 10]. One frame after the one above, the same particle
    has been moved by its NaN velocity: its position is NaN, both tests of
    the wrap are false on it, and it is neither at least -10 nor at most the
    width (height) plus 10. On numbers the wrap does keep the range:
    [wrapAxis_range], [step_wrap_range]. *)
Theorem wrap_keeps_nan :
  let s := run [MouseMove 960 540; Frame 1; Frame 2] desktop in
  reachable s /\
  animationId (vars s) = Some 3 /\
  exists p,
    nth_error (particles (vars s)) 0 = Some p /\
    PrimFloat.is_nan (p_x p) = true /\
    (-10 <=? p_x p)%float = false /\
    (p_x p <=? Num.of_Z (innerWidth (win s)) + 10)%float = false /\
    PrimFloat.is_nan (p_y p) = true /\
    (-10 <=? p_y p)%float = false /\
    (p_y p <=? Num.of_Z (innerHeight (win s)) + 10)%float = false.
Proof.
  cbv zeta. split; [| split].
  - apply reachable_run, reach_boot. unfold pristine; simpl.
    repeat split; lia.
  - vm_compute. reflexivity.
  - eexists. split; [vm_compute; reflexivity |].
    repeat split; vm_compute; reflexivity.
Qed.

(** * Further properties of the script *)

(** ** resize and the particles it keeps *)

Lemma draws_push s : draws (host (push s)) = (draws (host s) + 5)%nat.
Proof. unfold push, createParticle, random; simpl. lia. Qed.

Lemma particles_push s :
  exists p, particles (vars (push s)) = particles (vars s) ++ [p].
Proof. unfold push, createParticle, random; simpl. eexists. reflexivity. Qed.

(** The grow loop appends, and calls the generator five times for each
    particle it appends. *)
Lemma grow_appends target s :
  exists fresh,
    particles (vars (grow target s)) = particles (vars s) ++ fresh /\
    Z.of_nat (length fresh) = Z.max 0 (target - count s) /\
    draws (host (grow target s)) = (draws (host s) + 5 * length fresh)%nat.
Proof.
  funelim (grow target s).
  - match goal with IH : exists _, _ |- _ => destruct IH as (fresh & Hp & Hl & Hd) end.
    destruct (particles_push s) as (p & Hpush).
    exists (p :: fresh). rewrite Hp, Hd, Hpush, draws_push, <- app_assoc.
    rewrite count_push in Hl. simpl length.
    split; [reflexivity | split; lia].
  - exists []. rewrite app_nil_r. simpl. split; [reflexivity | split; lia].
Qed.

Lemma firstn_removelast {A} (n : nat) (l : list A) :
  (n < length l)%nat -> firstn n (removelast l) = firstn n l.
Proof.
  intros Hlt. rewrite removelast_firstn_len, firstn_firstn.
  f_equal. lia.
Qed.

(** The trim loop keeps the front of the array and calls nothing. *)
Lemma trim_keeps_front target s :
  0 <= target ->
  particles (vars (trim target s)) = firstn (Z.to_nat target) (particles (vars s)) /\
  draws (host (trim target s)) = draws (host s).
Proof.
  intros Ht. funelim (trim target s).
  - unfold count in *. rewrite firstn_all2 by lia. split; reflexivity.
  - match goal with IH : _ -> _ /\ _ |- _ => destruct (IH Ht) as (Hp & Hd) end.
    rewrite Hp, Hd. unfold pop; simpl. split; [| reflexivity].
    apply firstn_removelast. unfold count in *. lia.
  - unfold count in *. lia.
Qed.

(** X1. [resize] keeps the particles it already has, in order: the array it
    leaves is the first [target] elements of the old array followed by
    newly created particles (none when the old array was long enough), and
    [Math.random] has been called five times per new particle, not at all
    when the array shrinks or stays. *)
Theorem resize_keeps_front (s : World) :
  let n := Z.to_nat (targetCount (win s)) in
  exists fresh,
    particles (vars (resize s)) = firstn n (particles (vars s) ++ fresh) /\
    length fresh = (n - length (particles (vars s)))%nat /\
    draws (host (resize s)) = (draws (host s) + 5 * length fresh)%nat.
Proof.
  cbv zeta. unfold resize.
  set (t := targetCount (win s)).
  set (s1 := emit _ _).
  assert (Ht : 30 <= t <= 120) by apply targetCount_range.
  destruct (trim_keeps_front t (grow t s1)) as (P & D); [lia |].
  destruct (grow_appends t s1) as (fresh & G & L & R).
  exists fresh. rewrite P, D, G, R.
  change (particles (vars s1)) with (particles (vars s)) in *.
  change (draws (host s1)) with (draws (host s)).
  change (count s1) with (count s) in L. unfold count in L.
  split; [reflexivity | split; [lia | reflexivity]].
Qed.

Lemma grow_done target s : target <= count s -> grow target s = s.
Proof. intros H. funelim (grow target s); [lia | reflexivity]. Qed.

Lemma trim_done target s : count s <= target -> trim target s = s.
Proof. intros H. funelim (trim target s); try reflexivity. lia. Qed.

Lemma sizes_grow target s :
  w (vars (grow target s)) = w (vars s) /\
  h (vars (grow target s)) = h (vars s) /\
  canvas (host (grow target s)) = canvas (host s).
Proof.
  funelim (grow target s); [| repeat split].
  match goal with IH : _ /\ _ /\ _ |- _ => destruct IH as (A & B & C) end.
  rewrite A, B, C. repeat split.
Qed.

Lemma sizes_trim target s :
  w (vars (trim target s)) = w (vars s) /\
  h (vars (trim target s)) = h (vars s) /\
  canvas (host (trim target s)) = canvas (host s).
Proof.
  funelim (trim target s);
    first [ match goal with IH : _ /\ _ /\ _ |- _ => exact IH end
          | repeat split ].
Qed.

(** X2. A second [resize] on an unchanged viewport creates nothing and
    drops nothing: the closure variables, the window, the document, the
    listeners, the pending frames and the random generator are as the first
    call left them, the canvas is assigned the same width, height and style
    sizes again, and the one context call it makes is
    [setTransform(dpr, 0, 0, dpr, 0, 0)], with dpr the device pixel ratio
    (1 when that is zero or NaN). *)
Theorem resize_twice (s : World) :
  let ratio := devicePixelRatio (window (host s)) in
  let dpr := if PrimFloat.is_zero ratio || PrimFloat.is_nan ratio
             then 1%float else ratio in
  vars (resize (resize s)) = vars (resize s) /\
  window (host (resize (resize s))) = window (host (resize s)) /\
  document (host (resize (resize s))) = document (host (resize s)) /\
  listeners (host (resize (resize s))) = listeners (host (resize s)) /\
  frames (host (resize (resize s))) = frames (host (resize s)) /\
  next_frame (host (resize (resize s))) = next_frame (host (resize s)) /\
  entropy (host (resize (resize s))) = entropy (host (resize s)) /\
  draws (host (resize (resize s))) = draws (host (resize s)) /\
  width (canvas (host (resize (resize s)))) = width (canvas (host (resize s))) /\
  height (canvas (host (resize (resize s)))) = height (canvas (host (resize s))) /\
  style_width (canvas (host (resize (resize s))))
    = style_width (canvas (host (resize s))) /\
  style_height (canvas (host (resize (resize s))))
    = style_height (canvas (host (resize s))) /\
  ctx (canvas (host (resize (resize s))))
    = ctx (canvas (host (resize s))) ++ [SetTransform dpr 0 0 dpr 0 0].
Proof.
  cbv zeta.
  pose proof (count_resize s) as Hc. pose proof (win_resize s) as Hw.
  set (cw := Num.max 1 (Num.floor (Num.of_Z (innerWidth (win s))
                        * Num.or_default (devicePixelRatio (win s)) 1))).
  set (ch := Num.max 1 (Num.floor (Num.of_Z (innerHeight (win s))
                        * Num.or_default (devicePixelRatio (win s)) 1))).
  assert (Hsz : w (vars (resize s)) = cw /\ h (vars (resize s)) = ch /\
                width (canvas (host (resize s))) = cw /\
                height (canvas (host (resize s))) = ch /\
                style_width (canvas (host (resize s))) = innerWidth (win s) /\
                style_height (canvas (host (resize s))) = innerHeight (win s)).
  { unfold resize.
    match goal with |- context [trim ?t (grow ?t ?u)] =>
      destruct (sizes_trim t (grow t u)) as (A & B & C);
      destruct (sizes_grow t u) as (A' & B' & C') end.
    rewrite A, B, C, A', B', C'. repeat split. }
  destruct Hsz as (Hws & Hhs & Hcw & Hch & Hsw & Hsh).
  set (r := resize s) in *. clearbody r.
  unfold resize. rewrite Hw.
  set (t := targetCount (win s)) in *.
  match goal with |- context [trim t (grow t ?u)] => set (r1 := u) end.
  assert (Hc1 : count r1 = t) by exact Hc.
  rewrite (grow_done t r1) by lia. rewrite (trim_done t r1) by lia.
  unfold r1; simpl. fold cw ch.
  rewrite Hcw, Hch, Hsw, Hsh.
  split; [rewrite <- Hws, <- Hhs; destruct (vars r); reflexivity |].
  repeat split.
Qed.

(** ** init when the run gate lets it through *)



(** ** The wiring of the listeners *)

(** Which handler each event reaches once [init] has registered its
    listeners. *)
Lemma dispatch_wired e s :
  listeners (host s) = registered \/ listeners (host s) = waiting ++ registered ->
  dispatch OnWindow "resize" e s = resize s /\
  dispatch OnWindow "mousemove" e s = onMove e s /\
  dispatch OnWindow "touchmove" e s = onMove e s /\
  dispatch OnWindow "mouseout" e s = onLeave s /\
  dispatch OnWindow "touchend" e s = onLeave s.
Proof.
  intros [Hl | Hl]; unfold dispatch; rewrite Hl; repeat split.
Qed.

(** X4. Once [init] has registered its listeners, a mouse move sets the
    pointer to the event's coordinates, a touch move sets it to the first
    touch point (to undefined coordinates when the event carries no touch),
    and mouseout and touchend clear it to null; each of these leaves
    everything else in the world as it was. *)
Theorem pointer_tracking (s : World) :
  listeners (host s) = registered \/ listeners (host s) = waiting ++ registered ->
  let r := mouse_radius (mouse (vars s)) in
  (forall x y,
     deliver (MouseMove x y) s =
     set_vars (with_mouse (mkMouse (Number x) (Number y) r)) s) /\
  (forall t ts,
     deliver (TouchMove (t :: ts)) s =
     set_vars (with_mouse (mkMouse (Number (fst t)) (Number (snd t)) r)) s) /\
  deliver (TouchMove []) s =
    set_vars (with_mouse (mkMouse Undefined Undefined r)) s /\
  deliver MouseOut s = set_vars (with_mouse (mkMouse Null Null r)) s /\
  deliver TouchEnd s = set_vars (with_mouse (mkMouse Null Null r)) s.
Proof.
  intros Hl. cbv zeta. simpl deliver.
  repeat split; intros;
    match goal with |- dispatch _ _ ?e _ = _ =>
      destruct (dispatch_wired e s Hl) as (_ & H1 & H2 & H3 & H4) end;
    rewrite ?H1, ?H2, ?H3, ?H4; reflexivity.
Qed.

Lemma pointer_tracking_witness :
  listeners (host desktop) = registered /\
  mouse (vars (deliver TouchEnd (deliver (MouseMove 3 4) desktop)))
    = mkMouse Null Null 90.
Proof.
  assert (Hl : listeners (host desktop) = registered) by (vm_compute; reflexivity).
  assert (Hr : mouse_radius (mouse (vars desktop)) = 90%float)
    by (vm_compute; reflexivity).
  revert Hl Hr. generalize desktop. intros d Hl Hr.
  split; [exact Hl |].
  destruct (pointer_tracking d (or_introl Hl)) as (Hm & _).
  rewrite Hm.
  destruct (pointer_tracking
              (set_vars (with_mouse (mkMouse (Number 3) (Number 4)
                           (mouse_radius (mouse (vars d))))) d)
              (or_introl Hl)) as (_ & _ & _ & _ & He).
  rewrite He. simpl. rewrite Hr. reflexivity.
Defined.

(** ** Worlds in which the script has registered nothing *)

Lemma quiet_deliver ev s :
  listeners (host s) = [] -> frames (host s) = [] ->
  vars (deliver ev s) = vars s /\
  listeners (host (deliver ev s)) = [] /\
  frames (host (deliver ev s)) = [] /\
  canvas (host (deliver ev s)) = canvas (host s) /\
  draws (host (deliver ev s)) = draws (host s).
Proof.
  intros Hl Hf.
  assert (Hd : forall t ty e u,
             listeners (host u) = [] -> dispatch t ty e u = u).
  { intros t ty e u Hu. unfold dispatch. rewrite Hu. reflexivity. }
  destruct ev; simpl deliver; rewrite ?Hd by exact Hl;
    try (repeat split; assumption).
  - destruct (readyState (doc s)); rewrite ?Hd by exact Hl;
      repeat split; assumption.
  - rewrite Hf. simpl. repeat split; assumption.
  - destruct (body (doc s)); simpl; repeat split; assumption.
Qed.

Lemma quiet_run evs s :
  listeners (host s) = [] -> frames (host s) = [] ->
  vars (run evs s) = vars s /\
  listeners (host (run evs s)) = [] /\
  frames (host (run evs s)) = [] /\
  canvas (host (run evs s)) = canvas (host s) /\
  draws (host (run evs s)) = draws (host s).
Proof.
  revert s. induction evs as [|ev evs IH]; intros s Hl Hf.
  - repeat split; assumption.
  - destruct (quiet_deliver ev s Hl Hf) as (A & B & C & D & E).
    simpl. fold (run evs (deliver ev s)).
    destruct (IH (deliver ev s) B C) as (A' & B' & C' & D' & E').
    rewrite A', D', E', A, D, E. repeat split; assumption.
Qed.

(** X5. Without the canvas element the script is inert for good: whatever
    events follow, the closure variables stay as declared (no particle, no
    frame handle, no pointer), no listener is registered, no frame is
    pending, nothing is drawn and [Math.random] is never called. *)
Theorem inert_without_canvas (a : Host) (evs : list Event) :
  pristine a ->
  vars (run evs (boot false a)) = declared /\
  listeners (host (run evs (boot false a))) = [] /\
  frames (host (run evs (boot false a))) = [] /\
  canvas (host (run evs (boot false a))) = canvas a /\
  draws (host (run evs (boot false a))) = draws a.
Proof.
  intros (Hf & Hl & _).
  exact (quiet_run evs (boot false a) Hl Hf).
Qed.

Lemma inert_without_canvas_witness :
  pristine (page 1920 1080 None) /\
  particles (vars (run [Resized 1000 700 1; MouseMove 5 5;
                        VisibilityChange true; VisibilityChange false; Frame 1]
                       (boot false (page 1920 1080 None)))) = [].
Proof.
  assert (Hp : pristine (page 1920 1080 None)).
  { unfold pristine; simpl. repeat split; lia. }
  split; [exact Hp |].
  rewrite (proj1 (inert_without_canvas (page 1920 1080 None) _ Hp)).
  reflexivity.
Defined.

(** X6. When [init] runs from the script body and stops before its gate
    (there is no body) or at it (the run gate denies), the script never
    starts later: whatever events follow, also ones that make the run gate
    pass, no particle is allocated, no listener registered, no frame
    requested and nothing drawn. *)
Theorem denied_stays_inert (a : Host) (evs : list Event) :
  pristine a ->
  readyState (document a) = Interactive ->
  body (document a) = None \/ shouldRun (mkWorld declared a) = false ->
  vars (run evs (boot true a)) = declared /\
  listeners (host (run evs (boot true a))) = [] /\
  frames (host (run evs (boot true a))) = [] /\
  canvas (host (run evs (boot true a))) = canvas a /\
  draws (host (run evs (boot true a))) = draws a.
Proof.
  intros (Hf & Hl & _) Hrs Hcase.
  assert (Hq : vars (boot true a) = declared /\
               listeners (host (boot true a)) = [] /\
               frames (host (boot true a)) = [] /\
               canvas (host (boot true a)) = canvas a /\
               draws (host (boot true a)) = draws a).
  { unfold boot. simpl negb. cbv iota. rewrite Hrs. unfold init.
    change (doc (mkWorld declared a)) with (document a).
    destruct (body (document a)) as [v|] eqn:Hb.
    - destruct Hcase as [? | Hrun]; [discriminate |].
      rewrite (shouldRun_normalize v (mkWorld declared a) Hb), Hrun.
      simpl. unfold normalize. destruct (falsyString v); repeat split; assumption.
    - simpl. repeat split; assumption. }
  destruct Hq as (A & B & C & D & E).
  destruct (quiet_run evs (boot true a) B C) as (A' & B' & C' & D' & E').
  rewrite A', D', E', A, D, E. repeat split; assumption.
Qed.

Lemma denied_stays_inert_witness :
  shouldRun (mkWorld declared (page 600 800 None)) = false /\
  shouldRun (run [Resized 1920 1080 1] (boot true (page 600 800 None))) = true /\
  particles (vars (run [Resized 1920 1080 1; VisibilityChange true;
                        VisibilityChange false]
                       (boot true (page 600 800 None)))) = [] /\
  frames (host (run [Resized 1920 1080 1; VisibilityChange true;
                     VisibilityChange false]
                    (boot true (page 600 800 None)))) = [].
Proof.
  split; [reflexivity |]. split; [vm_compute; reflexivity |].
  assert (Hp : pristine (page 600 800 None)).
  { unfold pristine; simpl. repeat split; lia. }
  pose proof (denied_stays_inert (page 600 800 None)
                [Resized 1920 1080 1; VisibilityChange true;
                 VisibilityChange false] Hp eq_refl (or_intror eq_refl))
    as (A & _ & C & _).
  rewrite A, C. split; reflexivity.
Defined.

(** ** init runs once *)

Lemma readyState_init s :
  readyState (doc (world_of (init s))) = readyState (doc s).
Proof.
  unfold init. destruct (body (doc s)) as [v|]; [| reflexivity].
  destruct (normalize_fields v s) as (_ & _ & _ & _ & _ & Nr & _).
  destruct (shouldRun (normalize v s)); simpl negb; cbv iota; [| exact Nr].
  set (s2 := Nat.iter _ push _).
  assert (Hc : control s2 = control (normalize v s)).
  { unfold s2. rewrite control_iter_push. apply control_resize. }
  apply control_fields in Hc. destruct Hc as (_ & _ & _ & _ & _ & _ & Cd).
  clearbody s2. unfold doc in *. simpl. rewrite Cd. exact Nr.
Qed.

Lemma readyState_call f e s :
  readyState (doc (call f e s)) = readyState (doc s).
Proof.
  destruct f; simpl call.
  - apply readyState_init.
  - destruct (control_fields _ _ (control_resize s)) as (_ & _ & _ & _ & _ & _ & Hd).
    rewrite Hd. reflexivity.
  - reflexivity.
  - reflexivity.
  - unfold onVisibility.
    destruct (hidden (doc s)), (truthy (animationId (vars s))),
             (shouldRun s); reflexivity.
Qed.

Lemma readyState_dispatch t ty e s :
  readyState (doc (dispatch t ty e s)) = readyState (doc s).
Proof.
  unfold dispatch. generalize (filter (listens t ty) (listeners (host s))).
  intros ls. revert s. induction ls as [|l ls IH]; intros s; [reflexivity |].
  simpl. rewrite IH. apply readyState_call.
Qed.

(** DOMContentLoaded reaches the script once: in any world, a second
    delivery of the event changes nothing, so a deferred [init] cannot run
    twice. *)
Lemma init_runs_once (s : World) :
  deliver DOMContentLoaded (deliver DOMContentLoaded s)
  = deliver DOMContentLoaded s.
Proof.
  simpl deliver. destruct (readyState (doc s)) eqn:Hrs.
  - rewrite readyState_dispatch. reflexivity.
  - rewrite Hrs. reflexivity.
Qed.

(** X8. In every reachable world the listeners are the one of the script
    body, the six of [init], both, or none: no listener is ever registered
    twice, and the six of [init] come together or not at all. *)
Theorem listeners_registered_once (s : World) :
  reachable s ->
  NoDup (listeners (host s)) /\
  (listeners (host s) = [] \/ listeners (host s) = waiting \/
   listeners (host s) = registered \/
   listeners (host s) = waiting ++ registered).
Proof.
  intros Hr. apply reachable_invariant in Hr.
  destruct Hr as (_ & Hw & _).
  assert (Hshape : listeners (host s) = [] \/ listeners (host s) = waiting \/
                   listeners (host s) = registered \/
                   listeners (host s) = waiting ++ registered).
  { destruct Hw as [[? _] | [[? _] | [[? _] | [? _]]]]; tauto. }
  split; [| exact Hshape].
  destruct Hshape as [E | [E | [E | E]]]; rewrite E;
    repeat (constructor; [simpl; intuition discriminate |]); constructor.
Qed.

Lemma listeners_registered_once_witness :
  reachable (run [DOMContentLoaded; DOMContentLoaded; Resized 800 600 2]
                 desktop) /\
  NoDup (listeners (host (run [DOMContentLoaded; DOMContentLoaded;
                               Resized 800 600 2] desktop))).
Proof.
  assert (Hr : reachable (run [DOMContentLoaded; DOMContentLoaded;
                               Resized 800 600 2] desktop)).
  { apply reachable_run, reach_boot. unfold pristine; simpl.
    repeat split; lia. }
  split; [exact Hr |].
  exact (proj1 (listeners_registered_once _ Hr)).
Defined.

(** ** What the events leave alone *)

Lemma live_listener s l :
  invariant s -> In l registered -> In l (listeners (host s)) -> live s.
Proof.
  intros (_ & Hw & _) Hreg Hin. unfold live.
  destruct Hw as [[Hl _] | [[Hl _] | [[Hl Hi] | [Hl Hi]]]]; try tauto;
    rewrite Hl in Hin; simpl in Hin; [contradiction |].
  destruct Hin as [<- | []]. simpl in Hreg.
  repeat (destruct Hreg as [E | Hreg]; [discriminate |]). contradiction.
Qed.

Lemma onVisibility_keeps s :
  particles (vars (onVisibility s)) = particles (vars s) /\
  mouse (vars (onVisibility s)) = mouse (vars s) /\
  win (onVisibility s) = win s /\
  doc (onVisibility s) = doc s /\
  listeners (host (onVisibility s)) = listeners (host s) /\
  canvas (host (onVisibility s)) = canvas (host s) /\
  draws (host (onVisibility s)) = draws (host s).
Proof.
  unfold onVisibility.
  destruct (hidden (doc s)), (truthy (animationId (vars s))), (shouldRun s);
    repeat split.
Qed.

Lemma step_keeps s :
  count (step s) = count s /\
  map p_r (particles (vars (step s))) = map p_r (particles (vars s)) /\
  mouse (vars (step s)) = mouse (vars s) /\
  win (step s) = win s /\
  doc (step s) = doc s /\
  listeners (host (step s)) = listeners (host s) /\
  draws (host (step s)) = draws (host s).
Proof.
  destruct (shouldRun s) eqn:Hrun.
  - destruct (step_running s Hrun) as (Hps & _ & _ & _ & Hm & Hl & Hw & Hd & _).
    cbv zeta in Hps. unfold count, win, doc. rewrite Hps, Hm, Hl, Hw, Hd.
    rewrite length_map, map_map.
    split; [reflexivity |]. split.
    + apply map_ext. intros p.
      destruct (advance_fields (win s) (mouse (vars s)) p) as (_ & _ & Hr & _).
      exact Hr.
    + repeat split. unfold step. rewrite Hrun. simpl negb. cbv iota.
      destruct (moveAll _ _ _). reflexivity.
  - unfold step. rewrite Hrun. simpl. repeat split.
Qed.

Lemma targetCount_sides wn wn' :
  innerWidth wn' = innerWidth wn -> innerHeight wn' = innerHeight wn ->
  targetCount wn' = targetCount wn.
Proof. unfold targetCount. intros -> ->. reflexivity. Qed.

(** One event in a live world: the world stays live, and the particle count
    is either re-established by [resize] or left with the viewport. *)
Lemma live_deliver ev s :
  live s ->
  live (deliver ev s) /\
  (count (deliver ev s) = targetCount (win (deliver ev s)) \/
   (count (deliver ev s) = count s /\
    targetCount (win (deliver ev s)) = targetCount (win s) /\
    forall iw ih dpr, ev <> Resized iw ih dpr)).
Proof.
  intros (Hrs & Hl). unfold live.
  destruct ev; simpl deliver.
  - match goal with |- context [dispatch _ _ ?e ?u] =>
      destruct (dispatch_wired e u Hl) as (H1 & _); rewrite H1;
      destruct (control_fields _ _ (control_resize u)) as (_ & _ & Cl & _ & _ & _ & Cd);
      pose proof (count_resize u) as Hc; pose proof (win_resize u) as Hw
    end.
    rewrite Cl, Cd, Hw. split; [split; assumption | left; exact Hc].
  - destruct (dispatch_wired (mkEvent None (Number x) (Number y)) s Hl)
      as (_ & H2 & _). rewrite H2.
    split; [split; assumption |]. right. repeat split; discriminate.
  - destruct (dispatch_wired (mkEvent (Some ts) Undefined Undefined) s Hl)
      as (_ & _ & H3 & _). rewrite H3.
    split; [split; assumption |]. right. repeat split; discriminate.
  - destruct (dispatch_wired plainEvent s Hl) as (_ & _ & _ & H4 & _).
    rewrite H4. split; [split; assumption |]. right. repeat split; discriminate.
  - destruct (dispatch_wired plainEvent s Hl) as (_ & _ & _ & _ & H5).
    rewrite H5. split; [split; assumption |]. right. repeat split; discriminate.
  - rewrite dispatch_visibility by exact Hl.
    match goal with |- context [onVisibility ?u] =>
      destruct (onVisibility_keeps u) as (Hp & _ & Hw & Hd & Hls & _) end.
    unfold count. rewrite Hp, Hw, Hd, Hls.
    split; [split; assumption |]. right. repeat split; discriminate.
  - rewrite Hrs. split; [split; assumption |]. right. repeat split; discriminate.
  - destruct (existsb (Z.eqb id) (frames (host s)));
      [| split; [split; assumption |]; right; repeat split; discriminate].
    match goal with |- context [step ?u] =>
      destruct (step_keeps u) as (Hc & _ & _ & Hw & Hd & Hls & _) end.
    rewrite Hc, Hw, Hd, Hls.
    split; [split; assumption |]. right. repeat split; discriminate.
  - destruct (body (doc s));
      (split; [split; assumption |]; right; repeat split; discriminate).
  - split; [split; assumption |]. right. repeat split; discriminate.
Qed.

Lemma live_run_count evs s :
  live s -> count s = targetCount (win s) ->
  live (run evs s) /\ count (run evs s) = targetCount (win (run evs s)).
Proof.
  revert s. induction evs as [|ev evs IH]; intros s Hl Hc; [split; assumption |].
  simpl. fold (run evs (deliver ev s)).
  destruct (live_deliver ev s Hl) as (Hl' & Hcase).
  apply IH; [exact Hl' |].
  destruct Hcase as [E | (E1 & E2 & _)]; [exact E | congruence].
Qed.

(** X9. Once [init] has registered its listeners, the first resize event
    brings the particle count to the target of the viewport, and from then
    on every world has exactly the target count of its current viewport,
    whatever events follow (the surplus that [init] leaves is gone for
    good). *)
Theorem count_settles (s : World) (iw ih : N) (dpr : float) (evs : list Event) :
  reachable s ->
  In (OnWindow, "resize"%string, h_resize) (listeners (host s)) ->
  count (run evs (deliver (Resized iw ih dpr) s))
  = targetCount (win (run evs (deliver (Resized iw ih dpr) s))).
Proof.
  intros Hr Hin.
  assert (Hl : live s).
  { apply (live_listener s _ (reachable_invariant s Hr)) in Hin;
      [exact Hin | simpl; tauto]. }
  destruct (live_deliver (Resized iw ih dpr) s Hl) as (Hl' & Hcase).
  apply live_run_count; [exact Hl' |].
  destruct Hcase as [E | (_ & _ & Hne)]; [exact E |].
  exfalso. exact (Hne iw ih dpr eq_refl).
Qed.

Lemma count_settles_witness :
  reachable desktop /\
  count desktop = 240 /\
  count (run [MouseMove 10 10; Frame 1]
             (deliver (Resized 1920 1080 1) desktop)) = 120.
Proof.
  assert (Hr : reachable desktop).
  { apply reach_boot. unfold pristine; simpl. repeat split; lia. }
  split; [exact Hr |]. split; [vm_compute; reflexivity |].
  assert (Hin : In (OnWindow, "resize"%string, h_resize)
                   (listeners (host desktop))) by (vm_compute; auto 10).
  rewrite (count_settles desktop 1920 1080 1 [MouseMove 10 10; Frame 1] Hr Hin).
  vm_compute. reflexivity.
Defined.

(** X10. A stopped loop is restarted by nothing but the document becoming
    visible: in a reachable world where [init] has registered its listeners
    and no frame is scheduled, every event other than a visibility change
    to visible (a resize above 640 pixels and a change of the attribute
    included) leaves the handle at none and no frame pending. *)
Theorem stopped_until_visible (s : World) (ev : Event) :
  reachable s ->
  In (OnDocument, "visibilitychange"%string, h_onVisibility)
     (listeners (host s)) ->
  animationId (vars s) = None ->
  ev <> VisibilityChange false ->
  animationId (vars (deliver ev s)) = None /\
  frames (host (deliver ev s)) = [].
Proof.
  intros Hr Hin Hnone Hev.
  pose proof (reachable_invariant s Hr) as Hinv.
  assert (Hlive : live s).
  { apply (live_listener s _ Hinv) in Hin; [exact Hin | simpl; tauto]. }
  destruct Hlive as (Hrs & Hl).
  pose proof Hinv as (Hok & _).
  pose proof (scheduled_frames_none s Hok Hnone) as Hf.
  destruct ev; simpl deliver.
  - match goal with |- context [dispatch _ _ ?e ?u] =>
      destruct (dispatch_wired e u Hl) as (H1 & _); rewrite H1;
      destruct (control_fields _ _ (control_resize u)) as (Ca & _ & _ & Cf & _)
    end.
    rewrite Ca, Cf. split; assumption.
  - destruct (dispatch_wired (mkEvent None (Number x) (Number y)) s Hl)
      as (_ & H2 & _). rewrite H2. split; assumption.
  - destruct (dispatch_wired (mkEvent (Some ts) Undefined Undefined) s Hl)
      as (_ & _ & H3 & _). rewrite H3. split; assumption.
  - destruct (dispatch_wired plainEvent s Hl) as (_ & _ & _ & H4 & _).
    rewrite H4. split; assumption.
  - destruct (dispatch_wired plainEvent s Hl) as (_ & _ & _ & _ & H5).
    rewrite H5. split; assumption.
  - destruct hid; [| contradiction].
    rewrite dispatch_visibility by exact Hl.
    unfold onVisibility. simpl hidden. cbv iota.
    simpl. rewrite Hnone. simpl. split; [reflexivity | exact Hf].
  - rewrite Hrs. split; assumption.
  - rewrite Hf. simpl. split; assumption.
  - destruct (body (doc s)); split; assumption.
  - split; assumption.
Qed.

Lemma stopped_until_visible_witness :
  reachable (run [Resized 600 800 1; Frame 1] desktop) /\
  animationId (vars (run [Resized 600 800 1; Frame 1] desktop)) = None /\
  shouldRun (deliver (Resized 1920 1080 1)
                     (run [Resized 600 800 1; Frame 1] desktop)) = true /\
  frames (host (deliver (Resized 1920 1080 1)
                        (run [Resized 600 800 1; Frame 1] desktop))) = [].
Proof.
  assert (Hr : reachable (run [Resized 600 800 1; Frame 1] desktop)).
  { apply reachable_run, reach_boot. unfold pristine; simpl.
    repeat split; lia. }
  assert (Hn : animationId (vars (run [Resized 600 800 1; Frame 1] desktop))
               = None) by (vm_compute; reflexivity).
  split; [exact Hr |]. split; [exact Hn |].
  split; [vm_compute; reflexivity |].
  apply (stopped_until_visible _ (Resized 1920 1080 1) Hr).
  - vm_compute. auto 10.
  - exact Hn.
  - discriminate.
Defined.

(** ** Repeated visibility changes *)

Lemma set_document_same (u : World) :
  set_host (with_document (document (host u))) u = u.
Proof. destruct u as [v [wn d c ls fs nf en dr]]. reflexivity. Qed.

Lemma onVisibility_twice s :
  scheduled_ok s -> onVisibility (onVisibility s) = onVisibility s.
Proof.
  intros Hok. pose proof Hok as (Hf & Hnz & Hn).
  pose proof (truthy_scheduled s Hok) as Ht.
  unfold onVisibility, doc in *.
  destruct (hidden (document (host s))) eqn:Hh.
  - destruct (animationId (vars s)) as [id|] eqn:Hid; rewrite Ht; simpl;
      rewrite ?Hh; reflexivity.
  - destruct (animationId (vars s)) as [id|] eqn:Hid; rewrite Ht; simpl.
    + rewrite Hh, Hid, Ht. reflexivity.
    + destruct (shouldRun s) eqn:Hrun; simpl.
      * rewrite Hh.
        destruct (Z.eqb_spec (next_frame (host s)) 0) as [E | _]; [lia |].
        reflexivity.
      * rewrite Hh, Hid, Hrun. reflexivity.
Qed.

(** X11. In a reachable world a visibility change delivered twice in a row
    does what one delivery does: a repeated "hidden" cancels nothing more, a
    repeated "visible" requests no second frame. *)
Theorem visibility_change_twice (s : World) (hid : bool) :
  reachable s ->
  deliver (VisibilityChange hid) (deliver (VisibilityChange hid) s)
  = deliver (VisibilityChange hid) s.
Proof.
  intros Hr. pose proof (reachable_invariant s Hr) as Hinv.
  pose proof (invariant_deliver (VisibilityChange hid) s Hinv) as Hinv'.
  revert Hinv'. simpl deliver.
  set (s1 := set_host _ s).
  assert (Hl1 : listeners (host s1) = listeners (host s)) by reflexivity.
  destruct Hinv as (Hok & Hw & _).
  assert (Hok1 : scheduled_ok s1) by exact Hok.
  destruct Hw as [[Hl _] | [[Hl _] | [[Hl _] | [Hl _]]]].
  - intros _. rewrite !dispatch_idle; try discriminate;
      try (left; rewrite ?dispatch_idle; try discriminate; tauto).
    reflexivity.
  - intros _. rewrite !dispatch_idle; try discriminate;
      try (right; rewrite ?dispatch_idle; try discriminate; tauto).
    reflexivity.
  - rewrite !(dispatch_visibility plainEvent s1) by (left; congruence).
    intros Hinv'.
    destruct (onVisibility_keeps s1) as (_ & _ & _ & Hd & Hls & _).
    replace (set_host _ (onVisibility s1)) with (onVisibility s1).
    + rewrite dispatch_visibility by (left; congruence).
      apply onVisibility_twice. exact Hok1.
    + unfold doc in *. rewrite Hd.
      change (onVisibility s1 =
              set_host (with_document (document (host s1))) (onVisibility s1)).
      rewrite <- Hd. symmetry. apply set_document_same.
  - rewrite !(dispatch_visibility plainEvent s1) by (right; congruence).
    intros Hinv'.
    destruct (onVisibility_keeps s1) as (_ & _ & _ & Hd & Hls & _).
    replace (set_host _ (onVisibility s1)) with (onVisibility s1).
    + rewrite dispatch_visibility by (right; congruence).
      apply onVisibility_twice. exact Hok1.
    + unfold doc in *. rewrite Hd.
      change (onVisibility s1 =
              set_host (with_document (document (host s1))) (onVisibility s1)).
      rewrite <- Hd. symmetry. apply set_document_same.
Qed.

Lemma visibility_change_twice_witness :
  reachable (deliver (VisibilityChange true) desktop) /\
  frames (host (deliver (VisibilityChange false)
                  (deliver (VisibilityChange false)
                     (deliver (VisibilityChange true) desktop)))) = [2].
Proof.
  assert (Hr : reachable (deliver (VisibilityChange true) desktop)).
  { apply reach_deliver, reach_boot. unfold pristine; simpl.
    repeat split; lia. }
  split; [exact Hr |].
  rewrite (visibility_change_twice _ false Hr).
  vm_compute. reflexivity.
Defined.

(** ** NaN once, NaN for good *)

Lemma is_nan_Prim2SF f : PrimFloat.is_nan f = true -> Prim2SF f = S754_nan.
Proof. intros H. unfold Prim2SF. rewrite H. reflexivity. Qed.

Lemma add_nan_l (a b : float) :
  PrimFloat.is_nan a = true -> PrimFloat.is_nan (a + b) = true.
Proof.
  intros Ha. apply Prim2SF_nan. rewrite add_spec, (is_nan_Prim2SF a Ha).
  reflexivity.
Qed.

Lemma add_nan_r (a b : float) :
  PrimFloat.is_nan b = true -> PrimFloat.is_nan (a + b) = true.
Proof.
  intros Hb. apply Prim2SF_nan. rewrite add_spec, (is_nan_Prim2SF b Hb).
  destruct (Prim2SF a); reflexivity.
Qed.

(** One update of a particle whose horizontal (vertical) velocity is NaN. *)
Lemma advance_nan wn m p :
  (PrimFloat.is_nan (p_vx p) = true ->
   PrimFloat.is_nan (p_vx (advance wn m p)) = true /\
   PrimFloat.is_nan (p_x (advance wn m p)) = true) /\
  (PrimFloat.is_nan (p_vy p) = true ->
   PrimFloat.is_nan (p_vy (advance wn m p)) = true /\
   PrimFloat.is_nan (p_y (advance wn m p)) = true).
Proof.
  destruct (advance_fields wn m p) as (Hx & Hy & _). cbv zeta in Hx, Hy.
  rewrite Hx, Hy. simpl p_x. simpl p_y.
  split; intros Hv.
  - split.
    + unfold advance, repel.
      destruct (notNull (mouse_x m)); [| exact Hv].
      destruct (_ <? _)%float; [| exact Hv].
      simpl. apply add_nan_l. exact Hv.
    + rewrite wrapAxis_nan; apply add_nan_r; exact Hv.
  - split.
    + unfold advance, repel.
      destruct (notNull (mouse_x m)); [| exact Hv].
      destruct (_ <? _)%float; [| exact Hv].
      simpl. apply add_nan_l. exact Hv.
    + rewrite wrapAxis_nan; apply add_nan_r; exact Hv.
Qed.

Lemma shouldRun_step s : shouldRun (step s) = shouldRun s.
Proof.
  destruct (step_keeps s) as (_ & _ & _ & Hw & Hd & _).
  apply shouldRun_inputs; rewrite ?Hw, ?Hd; reflexivity.
Qed.

Lemma shouldRun_iter_step n s : shouldRun (Nat.iter n step s) = shouldRun s.
Proof.
  induction n as [|n IH]; [reflexivity |].
  simpl Nat.iter. rewrite shouldRun_step. exact IH.
Qed.

(** X12. A NaN velocity is never repaired: while the run gate passes, a
    particle whose horizontal velocity is NaN still has it NaN after any
    number of frame steps, and from the first of them on its horizontal
    position is NaN too (so it is wrapped nowhere and drawn nowhere). *)
Theorem nan_velocity_persists (s : World) (i : nat) (p : Particle) (n : nat) :
  shouldRun s = true ->
  nth_error (particles (vars s)) i = Some p ->
  PrimFloat.is_nan (p_vx p) = true ->
  exists p',
    nth_error (particles (vars (Nat.iter (S n) step s))) i = Some p' /\
    PrimFloat.is_nan (p_vx p') = true /\
    PrimFloat.is_nan (p_x p') = true.
Proof.
  intros Hrun Hp Hv.
  assert (Hn : exists q, nth_error (particles (vars (Nat.iter n step s))) i = Some q /\
                         PrimFloat.is_nan (p_vx q) = true).
  { induction n as [|n IH]; [exists p; split; assumption |].
    destruct IH as (q & Hq & Hqv). simpl Nat.iter.
    pose proof (shouldRun_iter_step n s) as Hr. rewrite Hrun in Hr.
    destruct (step_running _ Hr) as (Hps & _). cbv zeta in Hps.
    eexists. split; [rewrite Hps, nth_error_map, Hq; reflexivity |].
    apply (proj1 (advance_nan _ _ q)). exact Hqv. }
  destruct Hn as (q & Hq & Hqv). simpl Nat.iter.
  pose proof (shouldRun_iter_step n s) as Hr. rewrite Hrun in Hr.
  destruct (step_running _ Hr) as (Hps & _). cbv zeta in Hps.
  eexists. split; [rewrite Hps, nth_error_map, Hq; reflexivity |].
  apply (proj1 (advance_nan _ _ q)). exact Hqv.
Qed.

Lemma nan_velocity_persists_witness :
  shouldRun twoDots = true /\
  exists p',
    nth_error (particles (vars (Nat.iter 3 step
       (set_vars (with_particles [mkParticle 100 100 PrimFloat.nan 0 1;
                                  rightDot]) twoDots)))) 0 = Some p' /\
    PrimFloat.is_nan (p_x p') = true.
Proof.
  split; [reflexivity |].
  destruct (nan_velocity_persists
              (set_vars (with_particles [mkParticle 100 100 PrimFloat.nan 0 1;
                                         rightDot]) twoDots)
              0 (mkParticle 100 100 PrimFloat.nan 0 1) 2
              eq_refl eq_refl eq_refl) as (p' & Hp & _ & Hx).
  exists p'. split; assumption.
Defined.

(** ** The repulsion on and off the pointer *)

(** Adding a number to zero gives a number. *)
Lemma add_zero_number (b : float) :
  PrimFloat.is_nan b = false -> PrimFloat.is_nan (0 + b) = false.
Proof.
  intros Hb. destruct (PrimFloat.is_nan (0 + b)) eqn:E; [| reflexivity].
  apply is_nan_Prim2SF in E. rewrite add_spec in E.
  change (Prim2SF 0) with (S754_zero false) in E.
  destruct (Prim2SF b) as [sb | sb | | sb mb eb] eqn:Eb;
    unfold SF64add, SFadd in E.
  - destruct sb; discriminate.
  - discriminate.
  - apply Prim2SF_nan in Eb. congruence.
  - discriminate.
Qed.

(** C6 (the code departs from it). A particle at distance d < 90 from the
    pointer should receive a velocity increment of magnitude
    0.6 * (90 - d) / 90 along the unit vector from the pointer to it. On
    the 1920 by 1080 page whose generator returns 0.5, with the pointer
    moved to (960, 540), particle 0 sits on the pointer with velocity
    (0, 0): after the step it is still there, its distance to the pointer
    is 0 < 90, and its velocity components are not 0 plus any number: the
    division of the zero offset by the zero distance made them NaN. *)
Theorem repulsion_on_pointer_no_increment :
  reachable (run [MouseMove 960 540] desktop) /\
  shouldRun (run [MouseMove 960 540] desktop) = true /\
  nth_error (particles (vars (run [MouseMove 960 540] desktop))) 0
    = Some (mkParticle 960 540 0 0 1.5) /\
  mouse (vars (run [MouseMove 960 540] desktop))
    = mkMouse (Number 960) (Number 540) 90 /\
  exists p',
    nth_error (particles (vars (step (run [MouseMove 960 540] desktop)))) 0
      = Some p' /\
    p_x p' = 960%float /\ p_y p' = 540%float /\
    PrimFloat.sqrt ((p_x p' - 960) * (p_x p' - 960)
                    + (p_y p' - 540) * (p_y p' - 540)) = 0%float /\
    (0 <? 90)%float = true /\
    (forall ix, PrimFloat.is_nan ix = false -> p_vx p' <> (0 + ix)%float) /\
    (forall iy, PrimFloat.is_nan iy = false -> p_vy p' <> (0 + iy)%float).
Proof.
  split.
  { apply reachable_run, reach_boot. unfold pristine; simpl.
    repeat split; lia. }
  do 3 (split; [vm_compute; reflexivity |]).
  exists (mkParticle 960 540 PrimFloat.nan PrimFloat.nan 1.5).
  split; [vm_compute; reflexivity |].
  do 4 (split; [reflexivity |]).
  split; intros v Hv E; simpl in E;
    pose proof (add_zero_number v Hv) as Hn; rewrite <- E in Hn;
    discriminate.
Qed.

(** X17. The repulsion as the step computes it, on the positions the step
    leaves: with the pointer at numbers (mx, my) and d the Euclidean
    distance from it to the particle's new position, d < 90 adds
    (x - mx) / d * 0.6 * ((90 - d) / 90) to vx and
    (y - my) / d * 0.6 * ((90 - d) / 90) to vy (NaN when d is 0); when
    d < 90 fails, and when the pointer is null, the velocity is left as it
    was. *)
Theorem repulsion_formula (s : World) (i : nat) (p : Particle) :
  reachable s ->
  shouldRun s = true ->
  nth_error (particles (vars s)) i = Some p ->
  exists p',
    nth_error (particles (vars (step s))) i = Some p' /\
    (forall mx my,
       mouse_x (mouse (vars s)) = Number mx ->
       mouse_y (mouse (vars s)) = Number my ->
       let dx := (p_x p' - mx)%float in
       let dy := (p_y p' - my)%float in
       let d := PrimFloat.sqrt (dx * dx + dy * dy) in
       ((d <? 90)%float = true ->
        p_vx p' = (p_vx p + dx / d * 0.6 * ((90 - d) / 90))%float /\
        p_vy p' = (p_vy p + dy / d * 0.6 * ((90 - d) / 90))%float) /\
       ((d <? 90)%float = false ->
        p_vx p' = p_vx p /\ p_vy p' = p_vy p)) /\
    (mouse_x (mouse (vars s)) = Null ->
     p_vx p' = p_vx p /\ p_vy p' = p_vy p).
Proof.
  intros Hreach Hrun Hp.
  pose proof (reachable_invariant s Hreach) as (_ & _ & Hrad & _).
  destruct (step_running s Hrun) as (Hps & _). cbv zeta in Hps.
  exists (advance (win s) (mouse (vars s)) p).
  split; [rewrite Hps, nth_error_map, Hp; reflexivity |].
  destruct (advance_fields (win s) (mouse (vars s)) p) as (Hx & Hy & _).
  cbv zeta in Hx, Hy. rewrite Hx, Hy.
  split.
  - intros mx my Hmx Hmy. cbv zeta.
    unfold advance, repel, pointerDist, offsetX, offsetY.
    rewrite Hmx, Hmy, Hrad. simpl notNull. simpl toNumber. cbv iota.
    split; intros Hd; rewrite Hd; split; reflexivity.
  - intros Hnull. unfold advance, repel. rewrite Hnull. split; reflexivity.
Qed.

Lemma repulsion_formula_witness :
  reachable (deliver (MouseMove 1000 540) desktop) /\
  shouldRun (deliver (MouseMove 1000 540) desktop) = true /\
  nth_error (particles (vars (deliver (MouseMove 1000 540) desktop))) 0
    = Some (mkParticle 960 540 0 0 1.5) /\
  exists p',
    nth_error (particles (vars (step (deliver (MouseMove 1000 540) desktop)))) 0
      = Some p' /\
    p_x p' = 960%float /\
    p_vx p' = (0 + (960 - 1000) / 40 * 0.6 * ((90 - 40) / 90))%float /\
    p_vy p' = (0 + (540 - 540) / 40 * 0.6 * ((90 - 40) / 90))%float.
Proof.
  assert (Hr : reachable (deliver (MouseMove 1000 540) desktop)).
  { apply reach_deliver, reach_boot. unfold pristine; simpl.
    repeat split; lia. }
  assert (Hrun : shouldRun (deliver (MouseMove 1000 540) desktop) = true)
    by (vm_compute; reflexivity).
  assert (Hp : nth_error (particles (vars (deliver (MouseMove 1000 540) desktop))) 0
               = Some (mkParticle 960 540 0 0 1.5))
    by (vm_compute; reflexivity).
  assert (Hmx : mouse_x (mouse (vars (deliver (MouseMove 1000 540) desktop)))
                = Number 1000) by (vm_compute; reflexivity).
  assert (Hmy : mouse_y (mouse (vars (deliver (MouseMove 1000 540) desktop)))
                = Number 540) by (vm_compute; reflexivity).
  split; [exact Hr |]. split; [exact Hrun |]. split; [exact Hp |].
  destruct (repulsion_formula _ 0%nat _ Hr Hrun Hp) as (p' & Hn & Hin & _).
  assert (Hx : p_x p' = 960%float /\ p_y p' = 540%float).
  { assert (E : nth_error (particles (vars (step (deliver (MouseMove 1000 540)
                                                         desktop)))) 0
                = Some (mkParticle 960 540
                          (0 + (960 - 1000) / 40 * 0.6 * ((90 - 40) / 90))
                          (0 + (540 - 540) / 40 * 0.6 * ((90 - 40) / 90)) 1.5))
      by (vm_compute; reflexivity).
    rewrite E in Hn. injection Hn as <-. split; reflexivity. }
  destruct Hx as (Hx & Hy).
  specialize (Hin _ _ Hmx Hmy). cbv zeta in Hin. rewrite Hx, Hy in Hin.
  destruct Hin as (Hin & _).
  exists p'. split; [exact Hn |]. split; [exact Hx |].
  apply Hin. reflexivity.
Defined.

(** ** The wrap, once more *)

(** X13. Wrapping is settled after one pass: with the far edge a number not
    below -10, wrapping an already wrapped coordinate changes nothing,
    whatever the coordinate was (NaN included). *)
Theorem wrapAxis_settled (edge v : float) :
  PrimFloat.is_nan edge = false ->
  (-10 <=? edge)%float = true ->
  wrapAxis edge (wrapAxis edge v) = wrapAxis edge v.
Proof.
  intros He Hlow.
  destruct (PrimFloat.is_nan v) eqn:Hv.
  - rewrite (wrapAxis_nan edge v Hv). apply wrapAxis_nan. exact Hv.
  - destruct (wrapAxis_range edge v Hv He Hlow) as (H1 & H2).
    apply (wrapAxis_cases edge (wrapAxis edge v) He).
    + apply leb_not_gt. exact H1.
    + apply leb_not_gt. exact H2.
Qed.

Lemma wrapAxis_settled_witness :
  wrapAxis 1930 (-11) = 1930%float /\
  wrapAxis 1930 (wrapAxis 1930 (-11)) = wrapAxis 1930 (-11).
Proof.
  split; [reflexivity |].
  apply wrapAxis_settled; reflexivity.
Defined.

(** X7. On numbers the wrap keeps the margin: in a running frame step, a
    particle whose moved coordinates are numbers (the far edges being
    numbers not below -10, as they are for every viewport) ends the step
    with its position within [-10, width + 10] by [-10, height + 10]. *)
Theorem wrap_on_numbers (s : World) (i : nat) (p : Particle) :
  shouldRun s = true ->
  nth_error (particles (vars s)) i = Some p ->
  PrimFloat.is_nan (Num.of_Z (innerWidth (win s)) + 10) = false ->
  (-10 <=? Num.of_Z (innerWidth (win s)) + 10)%float = true ->
  PrimFloat.is_nan (Num.of_Z (innerHeight (win s)) + 10) = false ->
  (-10 <=? Num.of_Z (innerHeight (win s)) + 10)%float = true ->
  PrimFloat.is_nan (p_x p + p_vx p) = false ->
  PrimFloat.is_nan (p_y p + p_vy p) = false ->
  exists p',
    nth_error (particles (vars (step s))) i = Some p' /\
    (-10 <=? p_x p')%float = true /\
    (p_x p' <=? Num.of_Z (innerWidth (win s)) + 10)%float = true /\
    (-10 <=? p_y p')%float = true /\
    (p_y p' <=? Num.of_Z (innerHeight (win s)) + 10)%float = true.
Proof.
  intros Hrun Hp Hex Hlx Hey Hly Hx Hy.
  exact (step_wrap_range s i p Hrun Hp Hex Hlx Hey Hly Hx Hy).
Qed.

Lemma wrap_on_numbers_witness :
  shouldRun twoDots = true /\
  exists p',
    nth_error (particles (vars (step twoDots))) 0 = Some p' /\
    (-10 <=? p_x p')%float = true /\ (p_x p' <=? 1930)%float = true.
Proof.
  split; [reflexivity |].
  destruct (wrap_on_numbers twoDots 0 leftDot eq_refl eq_refl
              eq_refl eq_refl eq_refl eq_refl eq_refl eq_refl)
    as (p' & Hp & H1 & H2 & _).
  exists p'. repeat split; assumption.
Defined.

(** ** What a frame costs and what it conserves *)

Lemma unorderedPairs_length ps :
  (2 * length (unorderedPairs ps) = length ps * (length ps - 1))%nat.
Proof.
  induction ps as [|a rest IH]; [reflexivity |].
  simpl unorderedPairs. rewrite length_app, length_map. simpl length.
  destruct (length rest) as [|k]; simpl in *; nia.
Qed.

Lemma link_length a b : (length (link a b) <= 6)%nat.
Proof. unfold link. destruct (_ <? _)%float; simpl; lia. Qed.

Lemma flat_map_length_le {A B} (f : A -> list B) (k : nat) (l : list A) :
  (forall x, length (f x) <= k)%nat ->
  (length (flat_map f l) <= k * length l)%nat.
Proof.
  intros Hf. induction l as [|x l IH]; [simpl; lia |].
  cbn [flat_map]. rewrite length_app. cbn [length].
  specialize (Hf x). nia.
Qed.

Lemma drawPoints_length ps :
  length (flat_map drawPoint ps) = (4 * length ps)%nat.
Proof.
  induction ps as [|p ps IH]; [reflexivity |].
  cbn [flat_map]. rewrite length_app, IH. simpl length. lia.
Qed.

(** X14. A running frame step only appends to the drawing: one
    [clearRect] over the viewport, then four context calls per particle,
    then at most six per unordered pair; with n particles that is at most
    1 + 4 n + 3 n (n - 1) calls. *)
Theorem frame_cost (s : World) :
  shouldRun s = true ->
  let n := length (particles (vars s)) in
  exists ops,
    ctx (canvas (host (step s))) =
      ctx (canvas (host s))
      ++ ClearRect 0 0 (Num.of_Z (innerWidth (win s)))
                       (Num.of_Z (innerHeight (win s))) :: ops /\
    (4 * n <= length ops <= 4 * n + 3 * (n * (n - 1)))%nat.
Proof.
  intros Hrun. cbv zeta.
  destruct (step_running s Hrun) as (_ & _ & _ & _ & _ & _ & _ & _ & Hctx).
  cbv zeta in Hctx. eexists. split; [exact Hctx |].
  set (ps := map _ _).
  assert (Hn : length ps = length (particles (vars s))) by apply length_map.
  rewrite length_app, drawPoints_length, drawLines_pairs, Hn.
  pose proof (flat_map_length_le (fun ab => link (fst ab) (snd ab)) 6
                (unorderedPairs ps) (fun ab => link_length _ _)) as Hl.
  pose proof (unorderedPairs_length ps) as Hp. rewrite Hn in Hp.
  split; [lia | nia].
Qed.

Lemma frame_cost_witness :
  shouldRun twoDots = true /\
  exists ops,
    ctx (canvas (host (step twoDots))) = ClearRect 0 0 1920 1080 :: ops /\
    (length ops <= 14)%nat.
Proof.
  split; [reflexivity |].
  destruct (frame_cost twoDots eq_refl) as (ops & Hc & _ & Hl).
  exists ops. split; [exact Hc | exact Hl].
Defined.

(** X15. A frame callback, whether the step runs or stops at the gate,
    creates and drops no particle, keeps every particle's radius, and
    leaves the pointer, the listeners, the viewport, the document and the
    random generator as they were. *)
Theorem frame_conserves (s : World) (id : Z) :
  count (deliver (Frame id) s) = count s /\
  map p_r (particles (vars (deliver (Frame id) s)))
    = map p_r (particles (vars s)) /\
  mouse (vars (deliver (Frame id) s)) = mouse (vars s) /\
  win (deliver (Frame id) s) = win s /\
  doc (deliver (Frame id) s) = doc s /\
  listeners (host (deliver (Frame id) s)) = listeners (host s) /\
  draws (host (deliver (Frame id) s)) = draws (host s).
Proof.
  simpl deliver.
  destruct (existsb (Z.eqb id) (frames (host s))); [| repeat split].
  match goal with |- context [step ?u] => exact (step_keeps u) end.
Qed.

(** X16. The run gate takes effect within one frame: in a reachable world
    where the gate fails, the pending frame callback, once it runs, leaves
    no callback pending and the handle at none, and moves no particle. *)
Theorem gate_stops_loop (s : World) (id : Z) :
  reachable s ->
  shouldRun s = false ->
  In id (frames (host s)) ->
  frames (host (deliver (Frame id) s)) = [] /\
  animationId (vars (deliver (Frame id) s)) = None /\
  particles (vars (deliver (Frame id) s)) = particles (vars s).
Proof.
  intros Hr Hrun Hin.
  pose proof (reachable_invariant s Hr) as (Hok & _).
  destruct (frame_scheduled id s Hok) as ((Hf & _) & _).
  simpl deliver in *.
  assert (Hex : existsb (Z.eqb id) (frames (host s)) = true).
  { apply existsb_exists. exists id. split; [exact Hin | apply Z.eqb_refl]. }
  rewrite Hex in *.
  match goal with |- context [step ?u] => set (s1 := u) in * end.
  assert (Hrun1 : shouldRun s1 = false) by exact Hrun.
  destruct (step_stopping s1 Hrun1) as (Ha & _).
  rewrite Ha in Hf. split; [exact Hf |]. split; [exact Ha |].
  unfold step. rewrite Hrun1. reflexivity.
Qed.

Lemma gate_stops_loop_witness :
  reachable (deliver (Resized 600 800 1) desktop) /\
  shouldRun (deliver (Resized 600 800 1) desktop) = false /\
  frames (host (deliver (Resized 600 800 1) desktop)) = [1] /\
  frames (host (deliver (Frame 1) (deliver (Resized 600 800 1) desktop))) = [].
Proof.
  assert (Hr : reachable (deliver (Resized 600 800 1) desktop)).
  { apply reach_deliver, reach_boot. unfold pristine; simpl.
    repeat split; lia. }
  split; [exact Hr |]. split; [vm_compute; reflexivity |].
  split; [vm_compute; reflexivity |].
  apply (gate_stops_loop _ 1 Hr).
  - vm_compute. reflexivity.
  - vm_compute. auto.
Defined.
